(** * google-searcher: a shallow embedding of [main.py]

    The script reads a table of post captions, builds one search query per
    row, asks the Custom Search API for it (retrying on HTTP 429 with an
    exponential back-off), keeps the first result link that belongs to the
    selected social network, and writes the link into the row's URL column.

    Python values are modelled as follows.
    - [str] is a list of Unicode code points ([list N]); [len] is the list
      length and [a in b] is the substring test.
    - [int] is [Z].
    - A [DataFrame] is the list of its rows in index order (the index that
      [read_csv] builds is [0 .. n-1]); a row maps a column label to a cell.
    - The network, the console, the clock and the writes into the table are
      effects: a computation takes the number of HTTP requests issued so
      far and returns its outcome (a value or a raised exception), the
      events it emitted, in order, and the new request count. *)

From Stdlib Require Import ZArith NArith List String Ascii Bool Lia.
From stdpp Require Import gmap list fin_maps.
Import ListNotations.

Local Open Scope Z_scope.

(* ===================================================================== *)
(** ** Strings *)
(* ===================================================================== *)

(** A Python [str]: the sequence of its code points. *)
Abbreviation pystr := (list N).

(** The code points of an ASCII literal. *)
Fixpoint py (s : string) : pystr :=
  match s with
  | EmptyString => []
  | String c s' => N_of_ascii c :: py s'
  end.

(** [len(s)] *)
Definition len (s : pystr) : Z := Z.of_nat (length s).

(** Whether [s] begins with [p]; the test [p in s] tries this at every
    offset of [s]. *)
Fixpoint starts_with (p s : pystr) : bool :=
  match p, s with
  | [], _ => true
  | _ :: _, [] => false
  | a :: p', b :: s' => (a =? b)%N && starts_with p' s'
  end.

(** [p in s] for two strings: [p] occurs in [s] as a contiguous run. *)
Fixpoint str_in (p s : pystr) : bool :=
  starts_with p s ||
  match s with
  | [] => false
  | _ :: s' => str_in p s'
  end.

(** [bool(s)] for a string: non-empty strings are truthy. *)
Definition truthy (s : pystr) : bool :=
  match s with
  | [] => false
  | _ :: _ => true
  end.

(** [re.sub(pattern, repl, text)] for a pattern that is one character
    class: scanning left to right, every character of the class is
    replaced by [repl] and every other character is copied. *)
Fixpoint re_sub_class (cls : N -> bool) (repl text : pystr) : pystr :=
  match text with
  | [] => []
  | c :: rest =>
      if cls c then repl ++ re_sub_class cls repl rest
      else c :: re_sub_class cls repl rest
  end.

(** The character class of the pattern, the complement of the range
    U+0000 to U+FFFF: everything outside the range. *)
Definition outside_bmp (c : N) : bool :=
  negb ((0 <=? c)%N && (c <=? 65535)%N).

(** [filter_bmp_characters] (main.py, line 100). *)
Definition filter_bmp_characters (text : pystr) : pystr :=
  re_sub_class outside_bmp [] text.

(* ===================================================================== *)
(** ** Network profiles *)
(* ===================================================================== *)

Definition MIN_TEXT_LENGTH : Z := 200.

(** [class SocialNetwork(Enum)] (line 18); the getters read the tuple. *)
Inductive SocialNetwork := FACEBOOK | INSTAGRAM.

Definition get_domain_url (sn : SocialNetwork) : pystr :=
  match sn with
  | FACEBOOK => py "https://www.facebook.com/"
  | INSTAGRAM => py "https://www.instagram.com/"
  end.

Definition get_valid_substrings (sn : SocialNetwork) : list pystr :=
  match sn with
  | FACEBOOK => [py "posts/"; py "videos/"; py "photos/"; py "groups/"]
  | INSTAGRAM => [py "p/"; py "tv/"; py "reel/"; py "video/"; py "photo/"]
  end.

Definition get_text_column (sn : SocialNetwork) : pystr :=
  match sn with
  | FACEBOOK => py "Caption"
  | INSTAGRAM => py "Caption"
  end.

Definition get_url_column (sn : SocialNetwork) : pystr :=
  match sn with
  | FACEBOOK => py "URL"
  | INSTAGRAM => py "URL"
  end.

Definition get_site_query (sn : SocialNetwork) : pystr :=
  match sn with
  | FACEBOOK => py "site: facebook.com"
  | INSTAGRAM => py "site: instagram.com"
  end.

(** The test of lines 123-124 on one link. *)
Definition accepted (sn : SocialNetwork) (link : pystr) : bool :=
  str_in (get_domain_url sn) link &&
  existsb (fun substring => str_in substring link) (get_valid_substrings sn).


(* ===================================================================== *)
(** ** The search endpoint, exceptions and effects *)
(* ===================================================================== *)

(** The [params] dictionary of line 107. *)
Record params := { q : pystr; key : pystr; cx : pystr; num : Z }.

(** One value that [for item in itens] meets, by what lines 122-124 do
    with it: an object whose ['link'] is absent ([None]) or a string; an
    object whose ['link'] is null, a number or a boolean; or a value that
    is not an object (an array, a string, a number, a boolean, null).
    An object whose ['link'] is itself an array or an object is not
    covered: the tests of lines 123-124 are then membership tests in that
    container, and the function can return the container instead of a
    string. *)
Inductive item :=
| Item (link : option pystr)
| ItemScalarLink
| ItemNotObject.

(** The body of a response, by what lines 118-121 do with it: text that
    is not JSON; a JSON object whose ['items'] is absent ([None]) or an
    array; JSON that is not an object; an object whose ['items'] is null,
    a number or a boolean; an object whose ['items'] is a string of [n]
    characters; an object whose ['items'] is an object of [n] keys. *)
Inductive body :=
| Malformed
| Json (items : option (list item))
| JsonNotObject
| JsonItemsScalar
| JsonItemsText (n : nat)
| JsonItemsObject (n : nat).

Record Response := { status_code : Z; content : body }.

(** What one [requests.get] meets: no connection ([requests.get] raises
    instead of returning), or a response. *)
Inductive reply := NoConnection | Reply (r : Response).

Inductive exn :=
| ConnectionError
| HTTPError (response : Response)
| JSONDecodeError
| KeyError (k : pystr)
| TypeError
| AttributeError.

(** The lines the script prints. *)
Inductive message :=
| MsgRateLimited (wait_time : Z)             (* line 131 *)
| MsgRequestError (status : Z)               (* line 134 *)
| MsgStart                                   (* line 155 *)
| MsgSkipped (line : Z) (length : Z)         (* line 164 *)
| MsgFound (line : Z) (url : pystr)          (* line 172 *)
| MsgNotFound (line : Z)                     (* line 174 *)
| MsgDone (found total : Z)                  (* line 176 *)
| MsgIgnored (skipped : Z)                   (* line 177 *)
| MsgFailed (not_found : Z).                 (* line 178 *)

Inductive event :=
| EvGet (p : params)                              (* requests.get *)
| EvSleep (secs : Z)                              (* time.sleep *)
| EvPrint (m : message)                           (* print *)
| EvSetColumn (col v : pystr)                     (* data_posts[col] = v *)
| EvSetAt (index : nat) (col v : pystr).          (* data_posts.at[index, col] = v *)

Inductive outcome (A : Type) :=
| Ret (a : A)
| Raise (e : exn).
Arguments Ret {A} a.
Arguments Raise {A} e.

(** A computation: from the number of requests issued so far to its
    outcome, the events it emitted and the new number of requests. *)
Definition M (A : Type) : Type := nat -> outcome A * list event * nat.

(** A step without effects. *)
Definition lift {A} (o : outcome A) : M A := fun n => (o, [], n).

Definition ret {A} (a : A) : M A := lift (Ret a).

Definition raise {A} (e : exn) : M A := lift (Raise e).

Definition bind {A B} (m : M A) (k : A -> M B) : M B :=
  fun n =>
    match m n with
    | (Ret a, ev, n1) =>
        match k a n1 with
        | (r, ev', n2) => (r, ev ++ ev', n2)
        end
    | (Raise e, ev, n1) => (Raise e, ev, n1)
    end.

Notation "x <- m ;; k" := (bind m (fun x => k))
  (at level 100, m at next level, right associativity).
Notation "m ;;; k" := (bind m (fun _ => k))
  (at level 100, right associativity).

Definition emit (e : event) : M unit := fun n => (Ret tt, [e], n).

Definition print (m : message) : M unit := emit (EvPrint m).

Definition sleep (secs : Z) : M unit := emit (EvSleep secs).

(** [try: m except requests.exceptions.HTTPError: h]; every other
    exception passes through. *)
Definition try_except_HTTPError {A} (m : M A) (h : Response -> M A) : M A :=
  fun n =>
    match m n with
    | (Raise (HTTPError response), ev, n1) =>
        match h response n1 with
        | (r, ev', n2) => (r, ev ++ ev', n2)
        end
    | other => other
    end.

(** [range(n)] *)
Definition range (n : Z) : list Z := map Z.of_nat (seq 0 (Z.to_nat n)).

(** The statuses [raise_for_status] rejects: 4xx and 5xx. *)
Definition http_error (response : Response) : bool :=
  (400 <=? status_code response) && (status_code response <? 600).

(** [Response.raise_for_status] *)
Definition raise_for_status (response : Response) : M unit :=
  if http_error response then raise (HTTPError response) else ret tt.

(** [Response.json]: the parsed body, which is never [Malformed]. *)
Definition json (response : Response) : M body :=
  match content response with
  | Malformed => raise JSONDecodeError
  | search_results => ret search_results
  end.

(** [search_results.get('items', [])] *)
Definition get_items (search_results : option (list item)) : list item :=
  match search_results with
  | Some itens => itens
  | None => []
  end.

(** Line 119 and the start of line 121: what the loop iterates over.
    [.get] exists on an object only ([AttributeError]); null, a number
    and a boolean cannot be iterated ([TypeError]); a string yields its
    characters and an object its keys, all of them strings. *)
Definition iter_items (search_results : body) : outcome (list item) :=
  match search_results with
  | Malformed => Raise JSONDecodeError
  | Json items => Ret (get_items items)
  | JsonNotObject => Raise AttributeError
  | JsonItemsScalar => Raise TypeError
  | JsonItemsText n => Ret (repeat ItemNotObject n)
  | JsonItemsObject n => Ret (repeat ItemNotObject n)
  end.

(** The loop of lines 121-126, with its two [return]s. [item['link']]
    raises [KeyError] on an object without the key and [TypeError] on a
    value that is not an object; [... in link] raises [TypeError] on null,
    a number or a boolean. *)
Fixpoint first_relevant (social_network : SocialNetwork) (itens : list item)
  : outcome pystr :=
  match itens with
  | [] => Ret []
  | Item None :: _ => Raise (KeyError (py "link"))
  | Item (Some link) :: rest =>
      if str_in (get_domain_url social_network) link &&
         existsb (fun substring => str_in substring link)
                 (get_valid_substrings social_network)
      then Ret link
      else first_relevant social_network rest
  | ItemScalarLink :: _ => Raise TypeError
  | ItemNotObject :: _ => Raise TypeError
  end.

(** Lines 119-126 on a parsed body. *)
Definition body_links (social_network : SocialNetwork) (search_results : body)
  : outcome pystr :=
  match iter_items search_results with
  | Ret itens => first_relevant social_network itens
  | Raise e => Raise e
  end.

Section Search.

(** The endpoint: the reply to the [n]-th request of the run, which may
    depend on what is asked. *)
Variable server : nat -> params -> reply.

(** The credentials [main] reads from the environment. *)
Variables API_KEY CSE_ID : pystr.

(** [requests.get(API_URL, params=params)] *)
Definition requests_get (p : params) : M Response :=
  fun n =>
    match server n p with
    | NoConnection => (Raise ConnectionError, [EvGet p], S n)
    | Reply response => (Ret response, [EvGet p], S n)
    end.

(** One pass through the body of [for attempt in range(retries)]:
    [Some v] when the function returns [v], [None] when the loop goes on
    to the next attempt. *)
Definition attempt_body (p : params) (social_network : SocialNetwork)
  (attempt : Z) : M (option pystr) :=
  try_except_HTTPError
    (response <- requests_get p ;;
     raise_for_status response ;;;
     search_results <- json response ;;
     link <- lift (body_links social_network search_results) ;;
     ret (Some link))
    (fun response =>
       if status_code response =? 429 then
         let wait_time := 2 ^ attempt in
         print (MsgRateLimited wait_time) ;;;
         sleep wait_time ;;;
         ret None
       else
         print (MsgRequestError (status_code response)) ;;;
         ret (Some [])).

Fixpoint for_attempts (p : params) (social_network : SocialNetwork)
  (attempts : list Z) : M pystr :=
  match attempts with
  | [] => ret []
  | attempt :: rest =>
      r <- attempt_body p social_network attempt ;;
      match r with
      | Some v => ret v
      | None => for_attempts p social_network rest
      end
  end.

(** [google_search] (line 105). *)
Definition google_search (query : pystr) (social_network : SocialNetwork)
  (max_results retries : Z) : M pystr :=
  let p := {| q := query; key := API_KEY; cx := CSE_ID; num := max_results |} in
  for_attempts p social_network (range retries).

End Search.

(* ===================================================================== *)
(** ** The table and the row loop *)
(* ===================================================================== *)

(** A cell as [read_csv] delivers it: text, or NaN for an empty field. *)
Inductive cell := CStr (s : pystr) | CNaN.

Abbreviation row := (gmap pystr cell).
Abbreviation DataFrame := (list row).

(** [data_posts[col] = v]: the column is created, or overwritten, in every
    row. *)
Definition set_column (col : pystr) (v : cell) (df : DataFrame) : DataFrame :=
  map (fun r : row => <[col := v]> r) df.

(** [data_posts.at[index, col] = v] for an index of the table (the only
    ones the loop produces); other rows and other columns are untouched. *)
Definition set_at (index : nat) (col : pystr) (v : cell) (df : DataFrame)
  : DataFrame :=
  alter (fun r : row => <[col := v]> r) index df.

(** [data_posts.iterrows()]: the rows as they are when the loop starts,
    each with its index. *)
Definition iterrows (df : DataFrame) : list (nat * row) :=
  combine (seq 0 (length df)) df.

(** [row[col]] *)
Definition getitem (r : row) (col : pystr) : M cell :=
  match r !! col with
  | Some v => ret v
  | None => raise (KeyError col)
  end.

(** [re.sub] accepts a string only. *)
Definition as_text (v : cell) : M pystr :=
  match v with
  | CStr s => ret s
  | CNaN => raise TypeError
  end.

(** The local variables of [main] that the loop updates. *)
Record locals := {
  data_posts : DataFrame;
  search_success : Z;
  insuficient_text : Z
}.

(** The query of line 161. *)
Definition build_query (social_network : SocialNetwork) (text : pystr) : pystr :=
  get_site_query social_network ++ py "+" ++ filter_bmp_characters text.

Section Main.

Variable server : nat -> params -> reply.
Variables API_KEY CSE_ID : pystr.

(** The body of [for index, row in data_posts.iterrows()] (lines 160-174). *)
Definition row_body (social_network : SocialNetwork) (ir : nat * row)
  (l : locals) : M locals :=
  let index := fst ir in
  cell_text <- getitem (snd ir) (get_text_column social_network) ;;
  text <- as_text cell_text ;;
  let query := build_query social_network text in
  if len query <? MIN_TEXT_LENGTH then
    print (MsgSkipped (Z.of_nat index + 1) (len query)) ;;;
    ret {| data_posts := data_posts l;
           search_success := search_success l;
           insuficient_text := insuficient_text l + 1 |}
  else
    url <- google_search server API_KEY CSE_ID query social_network 5 5 ;;
    if truthy url then
      emit (EvSetAt index (get_url_column social_network) url) ;;;
      print (MsgFound (Z.of_nat index + 1) url) ;;;
      ret {| data_posts :=
               set_at index (get_url_column social_network) (CStr url)
                      (data_posts l);
             search_success := search_success l + 1;
             insuficient_text := insuficient_text l |}
    else
      print (MsgNotFound (Z.of_nat index + 1)) ;;;
      ret l.

Fixpoint for_rows (social_network : SocialNetwork) (rows : list (nat * row))
  (l : locals) : M locals :=
  match rows with
  | [] => ret l
  | ir :: rest =>
      l' <- row_body social_network ir l ;;
      for_rows social_network rest l'
  end.

(** The three totals of lines 176-178. *)
Record summary := { found : Z; skipped : Z; not_found : Z }.

(** [main] from line 153 on, for the profile chosen on line 147 and the
    table read on line 152; it returns the table that line 179 writes and
    the totals it printed. *)
Definition main (social_network : SocialNetwork) (table : DataFrame)
  : M (DataFrame * summary) :=
  emit (EvSetColumn (get_url_column social_network) []) ;;;
  let l0 := {| data_posts :=
                 set_column (get_url_column social_network) (CStr []) table;
               search_success := 0;
               insuficient_text := 0 |} in
  print MsgStart ;;;
  l <- for_rows social_network (iterrows (data_posts l0)) l0 ;;
  let total := Z.of_nat (length (data_posts l)) in
  print (MsgDone (search_success l) total) ;;;
  print (MsgIgnored (insuficient_text l)) ;;;
  print (MsgFailed (total - search_success l - insuficient_text l)) ;;;
  ret (data_posts l,
       {| found := search_success l;
          skipped := insuficient_text l;
          not_found := total - search_success l - insuficient_text l |}).

End Main.

(* ===================================================================== *)
(** ** Start-up: credentials, profile and input file *)
(* ===================================================================== *)

(** What ends the script before the table is read. *)
Inductive fatal :=
| SystemExit (code : Z)
| ValueError (arg : pystr)
| EOFError
| IndexError.

(** What the start-up writes to the console. *)
Inductive notice :=
| AskNetwork                               (* the prompt of line 147 *)
| SayInvalidChoice                         (* line 46 *)
| SaySelectFile                            (* line 148 *)
| AskFileName                              (* the prompt of line 68 *)
| SayListing (i : Z) (file : pystr)        (* line 71 *)
| SayInvalidName                           (* lines 77 and 82 *)
| SayInvalidExtension (extension : pystr). (* line 60 *)

Inductive result (A : Type) :=
| Done (a : A)
| Halt (f : fatal).
Arguments Done {A} a.
Arguments Halt {A} f.

(** A console computation: from the lines waiting on standard input to
    its result, what it wrote, and the lines left. *)
Definition C (A : Type) : Type :=
  list pystr -> result A * list notice * list pystr.

Definition pure {A} (a : A) : C A := fun stdin => (Done a, [], stdin).

Definition abort {A} (f : fatal) : C A := fun stdin => (Halt f, [], stdin).

Definition say (m : notice) : C unit := fun stdin => (Done tt, [m], stdin).

Definition then_ {A B} (m : C A) (k : A -> C B) : C B :=
  fun stdin =>
    match m stdin with
    | (Done a, out, rest) =>
        match k a rest with
        | (r, out', rest') => (r, out ++ out', rest')
        end
    | (Halt f, out, rest) => (Halt f, out, rest)
    end.

(** [input(prompt)]: the prompt is written, then a line is read;
    [EOFError] when there is none. *)
Definition input (prompt : notice) : C pystr :=
  fun stdin =>
    match stdin with
    | [] => (Halt EOFError, [prompt], [])
    | line :: rest => (Done line, [prompt], rest)
    end.

(** [s.endswith(suffix)]: the last [len(suffix)] characters are [suffix]. *)
Definition ends_with (suffix s : pystr) : bool :=
  bool_decide (skipn (length s - length suffix) s = suffix).

(** [x in files] for a list of strings. *)
Definition list_in (x : pystr) (l : list pystr) : bool :=
  existsb (fun y => bool_decide (y = x)) l.

(** [select_social_network] (line 39). *)
Definition select_social_network (sn : Z) : C SocialNetwork :=
  if sn =? 1 then pure FACEBOOK
  else if sn =? 2 then pure INSTAGRAM
  else then_ (say SayInvalidChoice) (fun _ => abort (SystemExit 1)).

(** [env_variable] (line 50), for the environment [environ]: a variable
    that is unset, or set to the empty string, raises [ValueError]. *)
Definition env_variable (environ : gmap pystr pystr) (var_name : pystr)
  : C pystr :=
  match environ !! var_name with
  | Some var_value =>
      if negb (truthy var_value) then abort (ValueError var_name)
      else pure var_value
  | None => abort (ValueError var_name)
  end.

(** [validate_file_extension] (line 57). *)
Definition validate_file_extension (file_name extension : pystr) : C unit :=
  if negb (ends_with extension file_name) then
    then_ (say (SayInvalidExtension extension))
          (fun _ => abort (SystemExit 1))
  else pure tt.

(** The lines of [for i, file in enumerate(files, 1): print(...)]. *)
Definition listing (files : list pystr) : list notice :=
  map (fun iv => SayListing (Z.of_nat (fst iv)) (snd iv))
      (combine (seq 1 (length files)) files).

(** The name of the file line 179 writes: [file_name[:-4]] and the new
    ending. *)
Definition output_name (file_name : pystr) : pystr :=
  firstn (length file_name - 4) file_name ++ py "_with_urls.csv".

Section Startup.

(** [str.isdigit] and [int] on strings, which read Unicode tables that
    are not modelled: [None] is the [ValueError] of [int]. *)
Variable str_isdigit : pystr -> bool.
Variable int_of_str : pystr -> option Z.

(** What [os.listdir('.')] and [os.path.isfile] answer. *)
Variable listdir : list pystr.
Variable isfile : pystr -> bool.

(** The [files] of line 66. *)
Definition visible_files : list pystr :=
  List.filter (fun file => isfile file && negb (starts_with (py ".") file))
              listdir.

(** The [while True] loop of lines 67-82; each pass reads one line. *)
Fixpoint file_loop (files : list pystr) (stdin : list pystr)
  : result pystr * list notice * list pystr :=
  match stdin with
  | [] => (Halt EOFError, [AskFileName], [])
  | user_input :: rest =>
      if bool_decide (user_input = py "?") then
        match file_loop files rest with
        | (r, out, rest') => (r, AskFileName :: listing files ++ out, rest')
        end
      else if str_isdigit user_input then
        match int_of_str user_input with
        | None => (Halt (ValueError user_input), [AskFileName], rest)
        | Some v =>
            let file_index := v - 1 in
            if (0 <=? file_index) && (file_index <? Z.of_nat (length files))
            then
              match files !! Z.to_nat file_index with
              | Some file => (Done file, [AskFileName], rest)
              | None => (Halt IndexError, [AskFileName], rest)
              end
            else
              match file_loop files rest with
              | (r, out, rest') =>
                  (r, AskFileName :: SayInvalidName :: out, rest')
              end
        end
      else if list_in user_input files then
        (Done user_input, [AskFileName], rest)
      else
        match file_loop files rest with
        | (r, out, rest') => (r, AskFileName :: SayInvalidName :: out, rest')
        end
  end.

(** [list_files_and_get_input] (line 64). *)
Definition list_files_and_get_input : C pystr := file_loop visible_files.

(** The credentials, profile and file name that [main] has in hand when
    it reads the table. *)
Record session := {
  session_key : pystr;
  session_cse : pystr;
  session_network : SocialNetwork;
  session_file : pystr
}.

(** [main] up to line 150, for the environment [environ] that
    [load_dotenv] leaves. *)
Definition main_startup (environ : gmap pystr pystr) : C session :=
  then_ (env_variable environ (py "API_KEY")) (fun API_KEY =>
  then_ (env_variable environ (py "CSE_ID")) (fun CSE_ID =>
  then_ (input AskNetwork) (fun choice =>
  then_ (match int_of_str choice with
         | Some v => pure v
         | None => abort (ValueError choice)
         end) (fun sn =>
  then_ (select_social_network sn) (fun social_network =>
  then_ (say SaySelectFile) (fun _ =>
  then_ list_files_and_get_input (fun file_name =>
  then_ (validate_file_extension file_name (py ".csv")) (fun _ =>
  pure {| session_key := API_KEY;
          session_cse := CSE_ID;
          session_network := social_network;
          session_file := file_name |})))))))).

End Startup.

(* ===================================================================== *)
(** ** Reading a run's events *)
(* ===================================================================== *)

(** The requests issued, in order. *)
Definition requests_of (ev : list event) : list params :=
  omap (fun e => match e with EvGet p => Some p | _ => None end) ev.

(** The waits, in order, in seconds. *)
Definition sleeps_of (ev : list event) : list Z :=
  omap (fun e => match e with EvSleep secs => Some secs | _ => None end) ev.

(** What [attempts] rate-limited attempts for [p] emit: each one a
    request, the notice of line 131 and the wait of line 132. *)
Definition backoff_events (p : params) (attempts : list Z) : list event :=
  flat_map (fun attempt =>
              [EvGet p; EvPrint (MsgRateLimited (2 ^ attempt));
               EvSleep (2 ^ attempt)]) attempts.

(** The reply is HTTP 429. *)
Definition rate_limited (r : reply) : bool :=
  match r with
  | NoConnection => false
  | Reply response => status_code response =? 429
  end.

(** The result objects that carry a link. *)
Definition with_link (l : pystr) : item := Item (Some l).

Definition has_link (it : item) : bool :=
  match it with
  | Item (Some _) => true
  | _ => false
  end.

(** A reply the search can digest: there is a response, and when its
    status is not an error its body is a JSON object whose ['items'] is
    absent or an array of objects that each have a string ['link']. *)
Definition digestible (r : reply) : bool :=
  match r with
  | NoConnection => false
  | Reply response =>
      http_error response ||
      match content response with
      | Json items => forallb has_link (get_items items)
      | _ => false
      end
  end.

(** The first element of [links] that passes the test, or the empty
    string. *)
Definition first_accepted (sn : SocialNetwork) (links : list pystr) : pystr :=
  match List.find (accepted sn) links with
  | Some link => link
  | None => []
  end.

(** The events of the search client. *)
Definition search_event (e : event) : bool :=
  match e with
  | EvGet _ | EvSleep _ => true
  | EvPrint (MsgRateLimited _) | EvPrint (MsgRequestError _) => true
  | _ => false
  end.

(** How a row ends: the three per-row lines of the loop. *)
Inductive verdict := RowSkipped | RowFound (url : pystr) | RowNotFound.

(** Line numbers count from 1 (the [index + 1] of the messages). *)
Definition line_of (index : nat) : Z := Z.of_nat index + 1.

Definition row_verdict (e : event) : option (Z * verdict) :=
  match e with
  | EvPrint (MsgSkipped line _) => Some (line, RowSkipped)
  | EvPrint (MsgFound line url) => Some (line, RowFound url)
  | EvPrint (MsgNotFound line) => Some (line, RowNotFound)
  | _ => None
  end.

(** The per-row lines of a run, in order, each with its line number. *)
Definition verdicts (ev : list event) : list (Z * verdict) :=
  omap row_verdict ev.

Definition is_found (v : verdict) : bool :=
  match v with RowFound _ => true | _ => false end.

Definition is_skipped (v : verdict) : bool :=
  match v with RowSkipped => true | _ => false end.

Definition is_not_found (v : verdict) : bool :=
  match v with RowNotFound => true | _ => false end.

Definition count_if {A} (f : A -> bool) (l : list A) : Z :=
  Z.of_nat (length (List.filter f l)).

(** The writes [data_posts.at[index, col] = v] of a run that target the
    row [index], in order. *)
Definition writes_to (index : nat) (ev : list event) : list (pystr * pystr) :=
  omap (fun e =>
          match e with
          | EvSetAt i col v => if Nat.eqb i index then Some (col, v) else None
          | _ => None
          end) ev.

(** What a row's ending does to the loop's variables. *)
Definition apply_verdict (sn : SocialNetwork) (l : locals)
  (iv : nat * verdict) : locals :=
  match snd iv with
  | RowSkipped =>
      {| data_posts := data_posts l;
         search_success := search_success l;
         insuficient_text := insuficient_text l + 1 |}
  | RowFound url =>
      {| data_posts :=
           set_at (fst iv) (get_url_column sn) (CStr url) (data_posts l);
         search_success := search_success l + 1;
         insuficient_text := insuficient_text l |}
  | RowNotFound => l
  end.

Definition replay (sn : SocialNetwork) (ivs : list (nat * verdict))
  (l : locals) : locals :=
  fold_left (apply_verdict sn) ivs l.

Definition verdict_writes (sn : SocialNetwork) (i : nat) (iv : nat * verdict)
  : list (pystr * pystr) :=
  match snd iv with
  | RowFound url =>
      if Nat.eqb (fst iv) i then [(get_url_column sn, url)] else []
  | _ => []
  end.

Definition verdict_line (iv : nat * verdict) : Z * verdict :=
  (line_of (fst iv), snd iv).

(** The loop's variables when the loop starts (lines 153-157). *)
Definition start_locals (sn : SocialNetwork) (table : DataFrame) : locals :=
  {| data_posts := set_column (get_url_column sn) (CStr []) table;
     search_success := 0;
     insuficient_text := 0 |}.

(** The totals printed for the loop's final variables (lines 176-178). *)
Definition totals (l : locals) : summary :=
  let total := Z.of_nat (length (data_posts l)) in
  {| found := search_success l;
     skipped := insuficient_text l;
     not_found := total - search_success l - insuficient_text l |}.

Definition closing_lines (l : locals) : list event :=
  [EvPrint (MsgDone (search_success l) (Z.of_nat (length (data_posts l))));
   EvPrint (MsgIgnored (insuficient_text l));
   EvPrint (MsgFailed (not_found (totals l)))].

(** A stub endpoint: the reply depends on the request alone, not on how
    many requests came before. *)
Definition deterministic (server : nat -> params -> reply) : Prop :=
  forall n m p, server n p = server m p.

(** A computation that does the same whatever the request count it starts
    from, and advances the count by a fixed amount. *)
Definition uniform {A} (c : M A) : Prop :=
  exists r ev d, forall n, c n = (r, ev, (n + d)%nat).

(** Two rows that agree on every column other than [col]. *)
Definition same_but (col : pystr) (r1 r2 : row) : Prop :=
  forall c, c <> col -> r1 !! c = r2 !! c.

(* ===================================================================== *)
(** ** Sample endpoints and links *)
(* ===================================================================== *)

Definition ok_response (itens : list item) : Response :=
  {| status_code := 200; content := Json (Some itens) |}.

Definition error_response (status : Z) : Response :=
  {| status_code := status; content := Malformed |}.

(** Always rate-limited. *)
Definition server_429 : nat -> params -> reply :=
  fun _ _ => Reply (error_response 429).

(** Always an internal server error. *)
Definition server_500 : nat -> params -> reply :=
  fun _ _ => Reply (error_response 500).

(** Unreachable. *)
Definition server_down : nat -> params -> reply :=
  fun _ _ => NoConnection.

(** Status 200 with a body that is not JSON. *)
Definition server_garbled : nat -> params -> reply :=
  fun _ _ => Reply {| status_code := 200; content := Malformed |}.

(** Status 200 with one result object that has no link. *)
Definition server_linkless : nat -> params -> reply :=
  fun _ _ => Reply (ok_response [Item None]).

(** Status 200 with one result object whose link is null. *)
Definition server_null_link : nat -> params -> reply :=
  fun _ _ => Reply (ok_response [ItemScalarLink]).

(** Status 200 with a JSON array as body. *)
Definition server_array_body : nat -> params -> reply :=
  fun _ _ => Reply {| status_code := 200; content := JsonNotObject |}.

(** Status 200 with an object whose items is null. *)
Definition server_null_items : nat -> params -> reply :=
  fun _ _ => Reply {| status_code := 200; content := JsonItemsScalar |}.

Definition sample_links : list pystr :=
  [py "https://www.facebook.com/johndoe";
   py "https://m.facebook.com/posts/123";
   py "https://www.facebook.com/posts/123";
   py "https://www.facebook.com/videos/9"].

(** Rate-limited once, then the sample links. *)
Definition server_busy_then_links : nat -> params -> reply :=
  fun n _ =>
    match n with
    | O => Reply (error_response 429)
    | S _ => Reply (ok_response (map with_link sample_links))
    end.

Definition sample_params : params :=
  {| q := py "site: facebook.com+hello"; key := py "k"; cx := py "c"; num := 5 |}.

(** A stub that answers queries mentioning cats with the sample links,
    and every other query with an empty result list. *)
Definition server_cats : nat -> params -> reply :=
  fun _ p =>
    if str_in (py "cats") (q p)
    then Reply (ok_response (map with_link sample_links))
    else Reply (ok_response []).

Definition sample_row (caption likes url : pystr) : row :=
  <[py "Caption" := CStr caption]>
    (<[py "Likes" := CStr likes]> (<[py "URL" := CStr url]> ∅)).

Definition short_caption : pystr := py "cats" ++ repeat 97%N 46.
Definition cats_caption : pystr := py "cats" ++ repeat 97%N 200.
Definition dogs_caption : pystr := py "dogs" ++ repeat 97%N 200.

(** Three rows: a 50-character caption, a caption the stub has a post
    for, and one it has nothing for; the input already has a URL column. *)
Definition sample_table : DataFrame :=
  [sample_row short_caption (py "1") (py "stale");
   sample_row cats_caption (py "2") (py "stale");
   sample_row dogs_caption (py "3") (py "stale")].

Definition sample_output : DataFrame :=
  [sample_row short_caption (py "1") [];
   sample_row cats_caption (py "2") (py "https://www.facebook.com/posts/123");
   sample_row dogs_caption (py "3") []].

(** What the run over the sample table emits. *)
Definition sample_events : list event :=
  Eval vm_compute in
    snd (fst (main server_cats (py "k") (py "c") FACEBOOK sample_table 0%nat)).

Definition sample_totals : summary :=
  {| found := 1; skipped := 1; not_found := 1 |}.

(** The seconds a run spends in [time.sleep]. *)
Definition total_sleep (ev : list event) : Z :=
  fold_right Z.add 0 (sleeps_of ev).

(** A request of the row loop over [rows] for the profile [sn]: the
    credentials, five results, and a query of 200 characters at least that
    is the profile's site fragment, a plus sign, and the caption of one of
    the rows without its characters above U+FFFF. *)
Definition sent_by (API_KEY CSE_ID : pystr) (sn : SocialNetwork)
  (rows : list row) (p : params) : Prop :=
  key p = API_KEY /\ cx p = CSE_ID /\ num p = 5 /\
  200 <= len (q p) /\
  exists (r : row) (text : pystr),
    In r rows /\ r !! get_text_column sn = Some (CStr text) /\
    q p = get_site_query sn ++ py "+" ++
          List.filter (fun c => (c <=? 65535)%N) text.

(** The found lines carry links that pass the profile's test. *)
Definition found_accepted (sn : SocialNetwork) (lv : Z * verdict) : Prop :=
  forall url, snd lv = RowFound url -> accepted sn url = true.

(** The rows of a run that got a found or a not-found line. *)
Definition searched (ev : list event) : Z :=
  count_if (fun v => negb (is_skipped v)) (map snd (verdicts ev)).

(** One for a raised exception, zero for a value. *)
Definition raised {A} (r : outcome A) : Z :=
  match r with
  | Ret _ => 0
  | Raise _ => 1
  end.

(** The exceptions that leave the search, for the replies of [reply]. *)
Definition search_exception (e : exn) : Prop :=
  e = ConnectionError \/ e = JSONDecodeError \/ e = AttributeError \/
  e = TypeError \/ e = KeyError (py "link").

(** The exceptions that leave the row loop, for the replies of [reply]. *)
Definition loop_exception (sn : SocialNetwork) (e : exn) : Prop :=
  e = KeyError (get_text_column sn) \/ search_exception e.

(** The caption of the row is a string. *)
Definition has_caption (sn : SocialNetwork) (r : row) : Prop :=
  exists text, r !! get_text_column sn = Some (CStr text).

(** Stand-ins for [str.isdigit] and [int] that read unsigned ASCII
    decimals only, for the sample sessions. *)
Definition ascii_isdigit (s : pystr) : bool :=
  truthy s && forallb (fun c => (48 <=? c)%N && (c <=? 57)%N) s.

Definition ascii_int (s : pystr) : option Z :=
  if ascii_isdigit s
  then Some (fold_left (fun acc c => 10 * acc + (Z.of_N c - 48)) s 0)
  else None.

(** A directory with a hidden file, a sub-directory and three files. *)
Definition sample_listdir : list pystr :=
  [py ".env"; py "data"; py "notes.txt"; py "posts.csv"; py "2024.csv"].

Definition sample_isfile (name : pystr) : bool :=
  negb (bool_decide (name = py "data")).

Definition sample_environ : gmap pystr pystr :=
  <[py "API_KEY" := py "k"]> (<[py "CSE_ID" := py "c"]> ∅).

(** The user picks Facebook, asks for the listing, mistypes a number and
    a name, and then picks the second file by its number. *)
Definition sample_stdin : list pystr :=
  [py "1"; py "?"; py "9"; py "post.csv"; py "2"; py "left over"].

(** The variable is not in the environment, or is the empty string. *)
Definition unset (environ : gmap pystr pystr) (var_name : pystr) : Prop :=
  environ !! var_name = None \/ environ !! var_name = Some [].

Definition sample_session : session :=
  {| session_key := py "k"; session_cse := py "c";
     session_network := FACEBOOK; session_file := py "posts.csv" |}.

(** What the console shows during the sample session. *)
Definition sample_console : list notice :=
  [AskNetwork; SaySelectFile;
   AskFileName;
   SayListing 1 (py "notes.txt"); SayListing 2 (py "posts.csv");
   SayListing 3 (py "2024.csv");
   AskFileName; SayInvalidName;
   AskFileName; SayInvalidName;
   AskFileName].

(** The sample table with the caption of its last row left empty. *)
Definition sample_broken_table : DataFrame :=
  [sample_row short_caption (py "1") (py "stale");
   sample_row cats_caption (py "2") (py "stale");
   <[py "Caption" := CNaN]> (sample_row dogs_caption (py "3") (py "stale"))].

Definition sample_broken_events : list event :=
  Eval vm_compute in
    snd (fst (main server_cats (py "k") (py "c") FACEBOOK sample_broken_table
                0%nat)).

(** What the search for the cats caption emits against the busy endpoint. *)
Definition sample_search_events : list event :=
  [EvGet sample_params; EvPrint (MsgRateLimited 1); EvSleep 1;
   EvGet sample_params].

Definition sample_environ_key_only : gmap pystr pystr :=
  <[py "API_KEY" := py "k"]> ∅.

Definition sample_visible : list pystr :=
  [py "notes.txt"; py "posts.csv"; py "2024.csv"].

(* ===================================================================== *)
(** ** Strings: what the tests compute *)
(* ===================================================================== *)

Lemma starts_with_spec (p s : pystr) :
  starts_with p s = true <-> exists post, s = p ++ post.
Proof.
  revert s. induction p as [|a p IH]; intros s; simpl.
  - split; [intros _; exists s; reflexivity | reflexivity].
  - destruct s as [|b s].
    + split; [discriminate | intros [post H]; discriminate].
    + rewrite andb_true_iff, N.eqb_eq, IH. split.
      * intros [-> [post ->]]. exists post. reflexivity.
      * intros [post H]. injection H as -> ->. split; [reflexivity | eauto].
Qed.

(** [p in s] holds exactly when [s] is some text, then [p], then some
    text. *)
Lemma str_in_spec (p s : pystr) :
  str_in p s = true <-> exists pre post, s = pre ++ p ++ post.
Proof.
  induction s as [|b s IH].
  - simpl. rewrite orb_false_r, starts_with_spec. split.
    + intros [post H]. exists [], post. exact H.
    + intros [pre [post H]]. destruct pre; [eauto | discriminate].
  - cbn [str_in]. rewrite orb_true_iff, starts_with_spec, IH. split.
    + intros [[post H] | [pre [post H]]].
      * exists [], post. exact H.
      * exists (b :: pre), post. rewrite H. reflexivity.
    + intros [pre [post H]]. destruct pre as [|c pre].
      * left. exists post. exact H.
      * right. injection H as _ H. eauto.
Qed.

Lemma accepted_spec (sn : SocialNetwork) (link : pystr) :
  accepted sn link = true <->
  (exists pre post, link = pre ++ get_domain_url sn ++ post) /\
  (exists substring, In substring (get_valid_substrings sn) /\
     exists pre post, link = pre ++ substring ++ post).
Proof.
  unfold accepted. rewrite andb_true_iff, str_in_spec, existsb_exists.
  split; intros [Hd [s [Hin Hs]]]; (split; [exact Hd | exists s; split; [exact Hin |]]).
  - apply str_in_spec, Hs.
  - apply str_in_spec, Hs.
Qed.

Lemma accepted_truthy (sn : SocialNetwork) (link : pystr) :
  accepted sn link = true -> truthy link = true.
Proof.
  unfold accepted. intros H. apply andb_true_iff in H as [H _].
  destruct link; [destruct sn; discriminate | reflexivity].
Qed.

(** The three links of the acceptance rule's examples. *)
Example accepted_facebook_post :
  accepted FACEBOOK (py "https://www.facebook.com/posts/123") = true.
Proof. reflexivity. Qed.

Example rejected_facebook_profile :
  accepted FACEBOOK (py "https://www.facebook.com/johndoe") = false.
Proof. reflexivity. Qed.

Example rejected_mobile_facebook :
  accepted FACEBOOK (py "https://m.facebook.com/posts/123") = false.
Proof. reflexivity. Qed.

Lemma re_sub_class_delete (cls : N -> bool) (text : pystr) :
  re_sub_class cls [] text = List.filter (fun c => negb (cls c)) text.
Proof.
  induction text as [|c rest IH]; simpl; [reflexivity |].
  destruct (cls c); simpl; rewrite IH; reflexivity.
Qed.

Lemma outside_bmp_spec (c : N) : outside_bmp c = true <-> (65535 < c)%N.
Proof.
  unfold outside_bmp. rewrite negb_true_iff, andb_false_iff, !N.leb_gt. lia.
Qed.

Lemma filter_bmp_as_filter (text : pystr) :
  filter_bmp_characters text = List.filter (fun c => (c <=? 65535)%N) text.
Proof.
  unfold filter_bmp_characters. rewrite re_sub_class_delete.
  apply List.filter_ext. intros c. unfold outside_bmp.
  rewrite negb_involutive. destruct c; reflexivity.
Qed.

(** The query of line 161, written out. *)
Lemma build_query_spelled (sn : SocialNetwork) (text : pystr) :
  build_query sn text
  = get_site_query sn ++ py "+" ++ List.filter (fun c => (c <=? 65535)%N) text.
Proof. unfold build_query. rewrite filter_bmp_as_filter. reflexivity. Qed.

(** C6. [filter_bmp_characters] keeps, in their order, exactly the
    characters with code point at most U+FFFF: its result is the input
    with every character above U+FFFF deleted and nothing else changed. *)
Theorem filter_bmp_characters_spec (text : pystr) :
  filter_bmp_characters text = List.filter (fun c => (c <=? 65535)%N) text.
Proof.
  unfold filter_bmp_characters. rewrite re_sub_class_delete.
  apply List.filter_ext. intros c. unfold outside_bmp.
  rewrite negb_involutive. destruct c; reflexivity.
Qed.

Example filter_bmp_emoji :
  filter_bmp_characters [97; 128512; 233; 65535; 65536; 98]%N = [97; 233; 65535; 98]%N.
Proof. reflexivity. Qed.

(* ===================================================================== *)
(** ** The search client *)
(* ===================================================================== *)

Section SearchFacts.

Variable server : nat -> params -> reply.
Variables API_KEY CSE_ID : pystr.

Lemma first_relevant_raise sn itens e :
  first_relevant sn itens = Raise e ->
  e = KeyError (py "link") \/ e = TypeError.
Proof.
  induction itens as [|[[link|]| |] rest IH]; simpl; intros H.
  - discriminate.
  - destruct (_ && _); [discriminate | auto].
  - left. congruence.
  - right. congruence.
  - right. congruence.
Qed.

Lemma first_relevant_ret sn itens url :
  first_relevant sn itens = Ret url -> url = [] \/ accepted sn url = true.
Proof.
  induction itens as [|[[link|]| |] rest IH]; simpl; intros H;
    try discriminate.
  - left. congruence.
  - fold (accepted sn link) in H. destruct (accepted sn link) eqn:E.
    + right. congruence.
    + auto.
Qed.

Lemma first_relevant_links sn links :
  first_relevant sn (map with_link links) = Ret (first_accepted sn links).
Proof.
  unfold first_accepted.
  induction links as [|link rest IH]; simpl; [reflexivity |].
  fold (accepted sn link). destruct (accepted sn link); [reflexivity | exact IH].
Qed.

Lemma first_relevant_has_link sn itens :
  forallb has_link itens = true -> exists url, first_relevant sn itens = Ret url.
Proof.
  induction itens as [|[[link|]| |] rest IH]; simpl; intros H;
    try discriminate.
  - eauto.
  - destruct (_ && _); eauto.
Qed.

Lemma first_relevant_not_objects sn (n : nat) :
  first_relevant sn (repeat ItemNotObject n)
  = match n with O => Ret [] | S _ => Raise TypeError end.
Proof. destruct n; reflexivity. Qed.

(** A parsed body gives a link or the empty string, or raises; never the
    exception of a status error. *)
Lemma body_links_raise sn b e :
  body_links sn b = Raise e ->
  e = JSONDecodeError \/ e = AttributeError \/ e = TypeError \/
  e = KeyError (py "link").
Proof.
  unfold body_links. destruct b as [|items| | |n|n]; cbn [iter_items];
    try (intros H; injection H as <-; auto).
  - intros H. apply first_relevant_raise in H. tauto.
  - rewrite first_relevant_not_objects. destruct n; [discriminate |].
    intros H. injection H as <-. auto.
  - rewrite first_relevant_not_objects. destruct n; [discriminate |].
    intros H. injection H as <-. auto.
Qed.

Lemma body_links_ret sn b url :
  body_links sn b = Ret url -> url = [] \/ accepted sn url = true.
Proof.
  unfold body_links. destruct b as [|items| | |n|n]; cbn [iter_items];
    try discriminate.
  - apply first_relevant_ret.
  - rewrite first_relevant_not_objects. destruct n; [| discriminate].
    intros H. injection H as <-. auto.
  - rewrite first_relevant_not_objects. destruct n; [| discriminate].
    intros H. injection H as <-. auto.
Qed.

(** What one attempt does, by the reply it meets. *)
Lemma attempt_body_unfold p sn attempt n :
  attempt_body server p sn attempt n =
  match server n p with
  | NoConnection => (Raise ConnectionError, [EvGet p], S n)
  | Reply response =>
      if http_error response then
        if status_code response =? 429 then
          (Ret None, backoff_events p [attempt], S n)
        else
          (Ret (Some []),
           [EvGet p; EvPrint (MsgRequestError (status_code response))], S n)
      else
        match body_links sn (content response) with
        | Ret link => (Ret (Some link), [EvGet p], S n)
        | Raise e => (Raise e, [EvGet p], S n)
        end
  end.
Proof.
  unfold attempt_body, try_except_HTTPError, bind, requests_get,
    raise_for_status, json, print, sleep, emit, ret, raise, lift.
  destruct (server n p) as [|response]; [reflexivity |].
  destruct (http_error response); simpl.
  - destruct (status_code response =? 429); reflexivity.
  - destruct (content response) as [|items| | |k|k] eqn:Hc; [reflexivity | | | | |];
      (destruct (body_links sn _) as [link|e] eqn:E; [reflexivity |];
       apply body_links_raise in E;
       destruct E as [->|[->|[->| ->]]]; reflexivity).
Qed.

(** Rate-limited attempts are passed over one by one. *)
Lemma for_attempts_rate_limited p sn (pre rest : list Z) n :
  (forall i, (i < length pre)%nat ->
     rate_limited (server (n + i)%nat p) = true) ->
  for_attempts server p sn (pre ++ rest) n =
  match for_attempts server p sn rest (n + length pre)%nat with
  | (r, ev, n') => (r, backoff_events p pre ++ ev, n')
  end.
Proof.
  revert n. induction pre as [|attempt pre IH]; intros n H.
  - simpl. rewrite Nat.add_0_r. destruct (for_attempts _ _ _ _ _) as [[r ev] n'].
    reflexivity.
  - assert (H0 := H 0%nat ltac:(simpl; lia)). rewrite Nat.add_0_r in H0.
    cbn [app for_attempts]. unfold bind at 1. rewrite attempt_body_unfold.
    unfold rate_limited in H0. destruct (server n p) as [|response]; [discriminate |].
    assert (Hs : status_code response = 429) by lia.
    unfold http_error. rewrite Hs. cbn -[backoff_events for_attempts Z.pow].
    rewrite IH.
    + replace (S n + length pre)%nat with (n + length (attempt :: pre))%nat
        by (simpl; lia).
      destruct (for_attempts _ _ _ _ _) as [[r ev] n']. reflexivity.
    + intros i Hi. replace (S n + i)%nat with (n + S i)%nat by lia.
      apply H. simpl. lia.
Qed.

Lemma range_of_nat (r : nat) : range (Z.of_nat r) = map Z.of_nat (seq 0 r).
Proof. unfold range. rewrite Nat2Z.id. reflexivity. Qed.

Lemma range_split (retries : Z) (j : nat) :
  (j < Z.to_nat retries)%nat ->
  range retries =
  range (Z.of_nat j) ++
  Z.of_nat j :: map Z.of_nat (seq (S j) (Z.to_nat retries - S j)).
Proof.
  intros H. rewrite range_of_nat. unfold range.
  replace (Z.to_nat retries) with (j + S (Z.to_nat retries - S j))%nat at 1
    by lia.
  rewrite seq_app, map_app. reflexivity.
Qed.

Lemma length_range (r : nat) : length (range (Z.of_nat r)) = r.
Proof. rewrite range_of_nat, length_map, length_seq. reflexivity. Qed.

Lemma requests_of_backoff p attempts :
  requests_of (backoff_events p attempts) = repeat p (length attempts).
Proof.
  induction attempts as [|a l IH]; simpl; [reflexivity |].
  f_equal. exact IH.
Qed.

Lemma sleeps_of_backoff p attempts :
  sleeps_of (backoff_events p attempts) =
  map (fun attempt => 2 ^ attempt) attempts.
Proof.
  induction attempts as [|a l IH]; [reflexivity |].
  cbn -[Z.pow]. f_equal. exact IH.
Qed.

(** C10. With [retries = 0] the loop body never runs: the result is the
    empty string, nothing is requested, printed or waited for. *)
Theorem google_search_no_retries query sn max_results n :
  google_search server API_KEY CSE_ID query sn max_results 0 n = (Ret [], [], n).
Proof. reflexivity. Qed.

(** C3. If each of the [r] attempts meets HTTP 429, the search issues
    exactly [r] requests, waits [2^0, 2^1, ..., 2^(r-1)] seconds (the wait
    numbered [i] right after the attempt numbered [i], so the last one
    follows the last attempt) and returns the empty string.  If the first
    attempt meets any other error status, it returns the empty string after
    that one request and no wait. *)
Theorem google_search_backoff query sn max_results :
  let p := {| q := query; key := API_KEY; cx := CSE_ID; num := max_results |} in
  (forall r n : nat,
     (forall i, (i < r)%nat -> rate_limited (server (n + i)%nat p) = true) ->
     exists ev,
       google_search server API_KEY CSE_ID query sn max_results (Z.of_nat r) n
       = (Ret [], ev, (n + r)%nat) /\
       ev = backoff_events p (range (Z.of_nat r)) /\
       requests_of ev = repeat p r /\
       sleeps_of ev = map (fun attempt => 2 ^ attempt) (range (Z.of_nat r))) /\
  (forall (retries : Z) (n : nat) (response : Response),
     0 < retries ->
     server n p = Reply response ->
     http_error response = true ->
     status_code response <> 429 ->
     google_search server API_KEY CSE_ID query sn max_results retries n
     = (Ret [], [EvGet p; EvPrint (MsgRequestError (status_code response))],
        S n)).
Proof.
  intros p. split.
  - intros r n H. exists (backoff_events p (range (Z.of_nat r))).
    split; [| split; [reflexivity | split]].
    + unfold google_search. fold p.
      rewrite <- (app_nil_r (range (Z.of_nat r))) at 1.
      rewrite for_attempts_rate_limited.
      * rewrite length_range. simpl. rewrite app_nil_r. reflexivity.
      * rewrite length_range. exact H.
    + rewrite requests_of_backoff, length_range. reflexivity.
    + apply sleeps_of_backoff.
  - intros retries n response Hr Hs He H429.
    unfold google_search. fold p.
    rewrite (range_split retries 0) by lia.
    change (range (Z.of_nat 0)) with (@nil Z). cbn [app for_attempts].
    unfold bind. rewrite attempt_body_unfold, Hs, He.
    apply Z.eqb_neq in H429. rewrite H429. reflexivity.
Qed.

(** C4. When an attempt (the first, or one that follows rate-limited
    attempts) meets a successful response whose result list carries the
    links [links], the search returns the first of them, in list order,
    that contains the profile's domain URL and one of its path substrings,
    and the empty string when there is none; it issues no further
    request. *)
Theorem google_search_first_match query sn max_results retries (j n : nat)
  response items links :
  let p := {| q := query; key := API_KEY; cx := CSE_ID; num := max_results |} in
  (j < Z.to_nat retries)%nat ->
  (forall i, (i < j)%nat -> rate_limited (server (n + i)%nat p) = true) ->
  server (n + j)%nat p = Reply response ->
  http_error response = false ->
  content response = Json items ->
  get_items items = map with_link links ->
  google_search server API_KEY CSE_ID query sn max_results retries n
  = (Ret (first_accepted sn links),
     backoff_events p (range (Z.of_nat j)) ++ [EvGet p], S (n + j)).
Proof.
  intros p Hj H429 Hs He Hc Hi.
  unfold google_search. fold p. rewrite (range_split retries j Hj).
  rewrite for_attempts_rate_limited by (rewrite length_range; exact H429).
  rewrite length_range. cbn [for_attempts]. unfold bind.
  rewrite attempt_body_unfold, Hs, He, Hc. cbn [body_links iter_items].
  rewrite Hi, first_relevant_links. reflexivity.
Qed.

(** With digestible replies the attempts end with a value. *)
Lemma for_attempts_returns p sn attempts n :
  (forall m p', digestible (server m p') = true) ->
  exists url ev n',
    for_attempts server p sn attempts n = (Ret url, ev, n') /\
    (url = [] \/ accepted sn url = true).
Proof.
  intros H. revert n.
  induction attempts as [|attempt rest IH]; intros n.
  - exists [], [], n. split; [reflexivity | left; reflexivity].
  - cbn [for_attempts]. unfold bind. rewrite attempt_body_unfold.
    specialize (H n p). unfold digestible in H.
    destruct (server n p) as [|response]; [discriminate |].
    destruct (http_error response).
    + destruct (status_code response =? 429).
      * destruct (IH (S n)) as (url & ev & n' & -> & Hu).
        eexists _, _, _. split; [reflexivity | exact Hu].
      * eexists _, _, _. split; [reflexivity | left; reflexivity].
    + simpl in H.
      destruct (content response) as [|items| | |k|k]; try discriminate.
      cbn [body_links iter_items].
      destruct (first_relevant_has_link sn _ H) as [url E]. rewrite E.
      eexists _, _, _. split; [reflexivity |].
      eapply first_relevant_ret, E.
Qed.

(** C2, as the code has it. When every request is answered, and every
    response whose status is not an error has a body that is a JSON object
    whose items are absent or an array of objects that each have a string
    link, the search returns the empty string or a link that passes the
    profile's test; it raises nothing. *)
Theorem google_search_returns query sn max_results retries n :
  (forall m p, digestible (server m p) = true) ->
  exists url ev n',
    google_search server API_KEY CSE_ID query sn max_results retries n
    = (Ret url, ev, n') /\
    (url = [] \/ accepted sn url = true).
Proof.
  intros H. unfold google_search. apply for_attempts_returns, H.
Qed.

End SearchFacts.

Lemma google_search_backoff_witness :
  (forall i, (i < 3)%nat ->
     rate_limited (server_429 (0 + i)%nat sample_params) = true) /\
  (exists ev,
     google_search server_429 (py "k") (py "c") (py "site: facebook.com+hello")
       FACEBOOK 5 (Z.of_nat 3) 0%nat
     = (Ret [], ev, 3%nat) /\
     requests_of ev = [sample_params; sample_params; sample_params] /\
     sleeps_of ev = [1; 2; 4]) /\
  google_search server_500 (py "k") (py "c") (py "site: facebook.com+hello")
    FACEBOOK 5 5 0%nat
  = (Ret [], [EvGet sample_params; EvPrint (MsgRequestError 500)], 1%nat).
Proof.
  assert (H429 : forall i, (i < 3)%nat ->
            rate_limited (server_429 (0 + i)%nat sample_params) = true)
    by (intros i _; reflexivity).
  split; [exact H429 | split].
  - destruct (google_search_backoff server_429 (py "k") (py "c")
                (py "site: facebook.com+hello") FACEBOOK 5) as [H _].
    destruct (H 3%nat 0%nat H429) as (ev & Hrun & _ & Hreq & Hsl).
    exists ev. split; [exact Hrun | split; [exact Hreq | exact Hsl]].
  - destruct (google_search_backoff server_500 (py "k") (py "c")
                (py "site: facebook.com+hello") FACEBOOK 5) as [_ H].
    apply (H 5 0%nat (error_response 500)).
    + lia.
    + reflexivity.
    + reflexivity.
    + simpl. lia.
Defined.

Lemma google_search_first_match_witness :
  google_search server_busy_then_links (py "k") (py "c")
    (py "site: facebook.com+hello") FACEBOOK 5 5 0%nat
  = (Ret (py "https://www.facebook.com/posts/123"),
     [EvGet sample_params; EvPrint (MsgRateLimited 1); EvSleep 1;
      EvGet sample_params], 2%nat).
Proof.
  apply (google_search_first_match server_busy_then_links (py "k") (py "c")
           (py "site: facebook.com+hello") FACEBOOK 5 5 1 0
           (ok_response (map with_link sample_links))
           (Some (map with_link sample_links)) sample_links).
  - simpl. lia.
  - intros i Hi. assert (i = 0%nat) as -> by lia. reflexivity.
  - reflexivity.
  - reflexivity.
  - reflexivity.
  - reflexivity.
Defined.

Lemma google_search_returns_witness :
  exists url ev n',
    google_search server_busy_then_links (py "k") (py "c")
      (py "site: facebook.com+hello") FACEBOOK 5 5 0%nat
    = (Ret url, ev, n') /\
    (url = [] \/ accepted FACEBOOK url = true).
Proof.
  apply (google_search_returns server_busy_then_links).
  intros m p. destruct m; reflexivity.
Defined.

(** C2, as stated, fails: a connection failure, a body that is not JSON,
    a result object without a link, a result object whose link is null, a
    body that is a JSON array and an items value that is null each reach
    the caller as an exception. *)
Lemma google_search_raises :
  google_search server_down (py "k") (py "c") (py "site: facebook.com+hello")
    FACEBOOK 5 5 0%nat
  = (Raise ConnectionError, [EvGet sample_params], 1%nat) /\
  google_search server_garbled (py "k") (py "c") (py "site: facebook.com+hello")
    FACEBOOK 5 5 0%nat
  = (Raise JSONDecodeError, [EvGet sample_params], 1%nat) /\
  google_search server_linkless (py "k") (py "c") (py "site: facebook.com+hello")
    FACEBOOK 5 5 0%nat
  = (Raise (KeyError (py "link")), [EvGet sample_params], 1%nat) /\
  google_search server_null_link (py "k") (py "c")
    (py "site: facebook.com+hello") FACEBOOK 5 5 0%nat
  = (Raise TypeError, [EvGet sample_params], 1%nat) /\
  google_search server_array_body (py "k") (py "c")
    (py "site: facebook.com+hello") FACEBOOK 5 5 0%nat
  = (Raise AttributeError, [EvGet sample_params], 1%nat) /\
  google_search server_null_items (py "k") (py "c")
    (py "site: facebook.com+hello") FACEBOOK 5 5 0%nat
  = (Raise TypeError, [EvGet sample_params], 1%nat) /\
  ~ (forall server query sn retries n, exists url ev n',
       google_search server (py "k") (py "c") query sn 5 retries n
       = (Ret url, ev, n')).
Proof.
  repeat (split; [reflexivity |]).
  intros H.
  destruct (H server_down (py "site: facebook.com+hello") FACEBOOK 5 0%nat)
    as (url & ev & n' & E).
  discriminate E.
Qed.

(* ===================================================================== *)
(** ** The row loop *)
(* ===================================================================== *)

Lemma verdicts_app ev1 ev2 : verdicts (ev1 ++ ev2) = verdicts ev1 ++ verdicts ev2.
Proof. apply omap_app. Qed.

Lemma writes_to_app i ev1 ev2 :
  writes_to i (ev1 ++ ev2) = writes_to i ev1 ++ writes_to i ev2.
Proof. apply omap_app. Qed.

Lemma search_events_silent ev :
  forallb search_event ev = true ->
  verdicts ev = [] /\ forall i, writes_to i ev = [].
Proof.
  induction ev as [|e ev IH]; simpl; [auto |].
  intros H. apply andb_true_iff in H as [He H].
  destruct (IH H) as [IHv IHw].
  destruct e as [p|secs|m|col v|index col v]; try discriminate;
    try (destruct m; try discriminate); cbn; auto.
Qed.

Section LoopFacts.

Variable server : nat -> params -> reply.
Variables API_KEY CSE_ID : pystr.

Lemma for_attempts_events p sn attempts n r ev n' :
  for_attempts server p sn attempts n = (r, ev, n') ->
  forallb search_event ev = true.
Proof.
  revert n r ev n'. induction attempts as [|attempt rest IH]; intros n r ev n'.
  - cbn. intros H. injection H as _ <- _. reflexivity.
  - cbn [for_attempts]. unfold bind. rewrite attempt_body_unfold.
    destruct (server n p) as [|response].
    + intros H. injection H as _ <- _. reflexivity.
    + destruct (http_error response).
      * destruct (status_code response =? 429).
        -- destruct (for_attempts server p sn rest (S n)) as [[r1 ev1] n1] eqn:E.
           intros H. injection H as _ <- _.
           apply IH in E. cbn -[Z.pow]. exact E.
        -- cbn. intros H. injection H as _ <- _. reflexivity.
      * destruct (body_links sn (content response)); cbn;
          intros H; injection H as _ <- _; reflexivity.
Qed.

Lemma google_search_events query sn max_results retries n r ev n' :
  google_search server API_KEY CSE_ID query sn max_results retries n
  = (r, ev, n') ->
  forallb search_event ev = true.
Proof. apply for_attempts_events. Qed.

(** A search that is allowed at least one attempt starts with a request
    for its query. *)
Lemma google_search_requests query sn max_results retries n :
  0 < retries ->
  exists r ev n',
    google_search server API_KEY CSE_ID query sn max_results retries n
    = (r, EvGet {| q := query; key := API_KEY; cx := CSE_ID;
                   num := max_results |} :: ev, n').
Proof.
  intros H. unfold google_search. rewrite (range_split retries 0) by lia.
  change (range (Z.of_nat 0)) with (@nil Z). cbn [app for_attempts].
  unfold bind. rewrite attempt_body_unfold.
  destruct (server n _) as [|response]; [eauto |].
  destruct (http_error response).
  - destruct (status_code response =? 429); [| eauto].
    destruct (for_attempts _ _ _ _ _) as [[r ev] n']. cbn. eauto.
  - destruct (body_links sn (content response)); cbn; eauto.
Qed.

(** The body of the row loop, by cases. *)
Lemma row_body_unfold sn ir l n :
  row_body server API_KEY CSE_ID sn ir l n =
  match snd ir !! get_text_column sn with
  | None => (Raise (KeyError (get_text_column sn)), [], n)
  | Some CNaN => (Raise TypeError, [], n)
  | Some (CStr text) =>
      let query := build_query sn text in
      if len query <? MIN_TEXT_LENGTH then
        (Ret (apply_verdict sn l (fst ir, RowSkipped)),
         [EvPrint (MsgSkipped (line_of (fst ir)) (len query))], n)
      else
        match google_search server API_KEY CSE_ID query sn 5 5 n with
        | (Ret url, ev, n') =>
            if truthy url then
              (Ret (apply_verdict sn l (fst ir, RowFound url)),
               ev ++ [EvSetAt (fst ir) (get_url_column sn) url;
                      EvPrint (MsgFound (line_of (fst ir)) url)], n')
            else
              (Ret l, ev ++ [EvPrint (MsgNotFound (line_of (fst ir)))], n')
        | (Raise e, ev, n') => (Raise e, ev, n')
        end
  end.
Proof.
  unfold row_body, bind, getitem, as_text, print, emit, ret, raise, lift.
  destruct (snd ir !! get_text_column sn) as [[text|]|]; try reflexivity.
  cbn zeta. destruct (len (build_query sn text) <? MIN_TEXT_LENGTH);
    [reflexivity |].
  destruct (google_search _ _ _ _ _ _ _ _) as [[[url|e] ev] n'];
    [| reflexivity].
  destruct (truthy url); reflexivity.
Qed.

(** A row that the loop gets through ends in one of the three ways. *)
Lemma row_body_ret sn ir l n l' ev n' :
  row_body server API_KEY CSE_ID sn ir l n = (Ret l', ev, n') ->
  exists v,
    verdicts ev = [verdict_line (fst ir, v)] /\
    l' = apply_verdict sn l (fst ir, v) /\
    forall i, writes_to i ev = verdict_writes sn i (fst ir, v).
Proof.
  rewrite row_body_unfold.
  destruct (snd ir !! get_text_column sn) as [[text|]|]; try discriminate.
  cbn zeta. destruct (len (build_query sn text) <? MIN_TEXT_LENGTH).
  - intros H. injection H as <- <- _. exists RowSkipped. auto.
  - destruct (google_search _ _ _ _ _ _ _ _) as [[[url|e] ev1] n1] eqn:E;
      [| discriminate].
    apply google_search_events, search_events_silent in E as [Ev Ew].
    destruct (truthy url); intros H; injection H as <- <- _.
    + exists (RowFound url). rewrite verdicts_app, Ev.
      split; [reflexivity | split; [reflexivity |]].
      intros i. rewrite writes_to_app, Ew. unfold verdict_writes. cbn.
      destruct (Nat.eqb (fst ir) i); reflexivity.
    + exists RowNotFound. rewrite verdicts_app, Ev.
      split; [reflexivity | split; [reflexivity |]].
      intros i. rewrite writes_to_app, Ew. reflexivity.
Qed.

(** A loop that gets through its rows is the replay of one verdict per
    row, in row order. *)
Lemma for_rows_ret sn irs l n l' ev n' :
  for_rows server API_KEY CSE_ID sn irs l n = (Ret l', ev, n') ->
  exists vs,
    length vs = length irs /\
    verdicts ev = map verdict_line (combine (map fst irs) vs) /\
    l' = replay sn (combine (map fst irs) vs) l /\
    forall i,
      writes_to i ev = flat_map (verdict_writes sn i) (combine (map fst irs) vs).
Proof.
  revert l n l' ev n'. induction irs as [|ir rest IH]; intros l n l' ev n'.
  - cbn. intros H. injection H as <- <- _. exists []. auto.
  - cbn [for_rows]. unfold bind.
    destruct (row_body _ _ _ _ _ _ _) as [[[l1|e] ev1] n1] eqn:E1;
      [| discriminate].
    destruct (for_rows _ _ _ _ _ _ _) as [[[l2|e] ev2] n2] eqn:E2;
      [| discriminate].
    intros H. injection H as <- <- _.
    apply row_body_ret in E1 as (v & Hv & -> & Hw).
    apply IH in E2 as (vs & Hlen & Hvs & -> & Hws).
    exists (v :: vs). cbn [length map combine flat_map].
    split; [congruence | split; [| split; [reflexivity |]]].
    + rewrite verdicts_app, Hv, Hvs. reflexivity.
    + intros i. rewrite writes_to_app, Hw, Hws. reflexivity.
Qed.

Lemma main_unfold sn table n :
  main server API_KEY CSE_ID sn table n =
  match for_rows server API_KEY CSE_ID sn
          (iterrows (data_posts (start_locals sn table)))
          (start_locals sn table) n with
  | (Ret l, ev, n') =>
      (Ret (data_posts l, totals l),
       EvSetColumn (get_url_column sn) [] :: EvPrint MsgStart ::
       ev ++ closing_lines l, n')
  | (Raise e, ev, n') =>
      (Raise e,
       EvSetColumn (get_url_column sn) [] :: EvPrint MsgStart :: ev, n')
  end.
Proof.
  unfold main, bind, print, emit, ret, lift. fold (start_locals sn table).
  destruct (for_rows _ _ _ _ _ _ _) as [[[l|e] ev] n']; reflexivity.
Qed.

End LoopFacts.

(* ===================================================================== *)
(** ** Replaying verdicts on the table *)
(* ===================================================================== *)

Lemma combine_fst_eq {A B} (l1 : list A) (l2 : list B) :
  length l2 = length l1 -> map fst (combine l1 l2) = l1.
Proof.
  revert l2. induction l1 as [|a l1 IH]; intros [|b l2] H;
    try discriminate; [reflexivity |].
  simpl. f_equal. apply IH. simpl in H. lia.
Qed.

Lemma combine_snd_eq {A B} (l1 : list A) (l2 : list B) :
  length l2 = length l1 -> map snd (combine l1 l2) = l2.
Proof.
  revert l2. induction l1 as [|a l1 IH]; intros [|b l2] H;
    try discriminate; [reflexivity |].
  simpl. f_equal. apply IH. simpl in H. lia.
Qed.

Lemma count_if_cons {A} (f : A -> bool) (x : A) (l : list A) :
  count_if f (x :: l) = (if f x then 1 else 0) + count_if f l.
Proof.
  unfold count_if. simpl. destruct (f x); simpl length; lia.
Qed.

(** The three kinds of verdict split any list of verdicts. *)
Lemma count_verdicts (vs : list verdict) :
  count_if is_found vs + count_if is_skipped vs + count_if is_not_found vs
  = Z.of_nat (length vs).
Proof.
  induction vs as [|v vs IH]; [reflexivity |].
  rewrite !count_if_cons. simpl length. destruct v; simpl; lia.
Qed.

Lemma replay_cons sn iv ivs l :
  replay sn (iv :: ivs) l = replay sn ivs (apply_verdict sn l iv).
Proof. reflexivity. Qed.

Lemma replay_counts sn ivs l :
  search_success (replay sn ivs l)
  = search_success l + count_if is_found (map snd ivs) /\
  insuficient_text (replay sn ivs l)
  = insuficient_text l + count_if is_skipped (map snd ivs).
Proof.
  revert l. induction ivs as [|[i v] ivs IH]; intros l.
  - unfold count_if. simpl. lia.
  - rewrite replay_cons. destruct (IH (apply_verdict sn l (i, v))) as [-> ->].
    cbn [map snd]. rewrite !count_if_cons.
    destruct v; unfold apply_verdict; simpl; lia.
Qed.

Lemma apply_verdict_length sn l iv :
  length (data_posts (apply_verdict sn l iv)) = length (data_posts l).
Proof.
  destruct iv as [i [|url|]]; unfold apply_verdict; simpl; try reflexivity.
  unfold set_at. apply length_alter.
Qed.

Lemma replay_length sn ivs l :
  length (data_posts (replay sn ivs l)) = length (data_posts l).
Proof.
  revert l. induction ivs as [|iv ivs IH]; intros l; [reflexivity |].
  rewrite replay_cons, IH. apply apply_verdict_length.
Qed.

(** A write into the URL column leaves every other column of every row
    as it was. *)
Lemma set_at_frame (index : nat) (col : pystr) (v : cell) (df : DataFrame)
  (i : nat) (r : row) :
  df !! i = Some r ->
  exists r', set_at index col v df !! i = Some r' /\
    forall c, c <> col -> r' !! c = r !! c.
Proof.
  intros H. unfold set_at. destruct (decide (index = i)) as [->|Hne].
  - rewrite list_lookup_alter_eq, H. simpl. eexists. split; [reflexivity |].
    intros c Hc. apply lookup_insert_ne. congruence.
  - rewrite list_lookup_alter_ne by exact Hne. eauto.
Qed.

Lemma replay_frame (sn : SocialNetwork) (ivs : list (nat * verdict))
  (l : locals) (i : nat) (r : row) :
  data_posts l !! i = Some r ->
  exists r', data_posts (replay sn ivs l) !! i = Some r' /\
    forall c, c <> get_url_column sn -> r' !! c = r !! c.
Proof.
  revert l r. induction ivs as [|[j v] ivs IH]; intros l r H.
  - exists r. auto.
  - rewrite replay_cons.
    assert (exists r1, data_posts (apply_verdict sn l (j, v)) !! i = Some r1 /\
              forall c, c <> get_url_column sn -> r1 !! c = r !! c)
      as (r1 & H1 & F1).
    { destruct v as [|url|]; unfold apply_verdict; simpl; eauto.
      apply set_at_frame, H. }
    destruct (IH _ _ H1) as (r' & H' & F').
    exists r'. split; [exact H' |].
    intros c Hc. rewrite F', F1 by exact Hc. reflexivity.
Qed.

(** Overwriting a column forgets what was written into it before. *)
Lemma set_column_set_at (index : nat) (col : pystr) (u v : cell)
  (df : DataFrame) :
  set_column col v (set_at index col u df) = set_column col v df.
Proof.
  unfold set_column, set_at. revert index.
  induction df as [|r df IH]; intros [|index]; simpl; try reflexivity.
  - rewrite insert_insert_eq. reflexivity.
  - f_equal. apply IH.
Qed.

Lemma set_column_twice (col : pystr) (v : cell) (df : DataFrame) :
  set_column col v (set_column col v df) = set_column col v df.
Proof.
  unfold set_column. rewrite map_map. apply map_ext.
  intros r. apply insert_insert_eq.
Qed.

Lemma replay_set_column sn ivs l v :
  set_column (get_url_column sn) v (data_posts (replay sn ivs l))
  = set_column (get_url_column sn) v (data_posts l).
Proof.
  revert l. induction ivs as [|[j w] ivs IH]; intros l; [reflexivity |].
  rewrite replay_cons, IH.
  destruct w as [|url|]; unfold apply_verdict; simpl; try reflexivity.
  apply set_column_set_at.
Qed.

(** A row that no verdict marks as found keeps the URL cell it had. *)
Lemma replay_url_kept (sn : SocialNetwork) (ivs : list (nat * verdict))
  (l : locals) (i : nat) (r : row) :
  data_posts l !! i = Some r ->
  (forall url, ~ In (i, RowFound url) ivs) ->
  exists r', data_posts (replay sn ivs l) !! i = Some r' /\
    r' !! get_url_column sn = r !! get_url_column sn.
Proof.
  revert l r. induction ivs as [|[j v] ivs IH]; intros l r H Hnot.
  - exists r. auto.
  - rewrite replay_cons.
    assert (data_posts (apply_verdict sn l (j, v)) !! i = Some r) as H1.
    { destruct v as [|url|]; unfold apply_verdict; simpl; auto.
      unfold set_at. rewrite list_lookup_alter_ne; [exact H |].
      intros ->. apply (Hnot url). left. reflexivity. }
    apply (IH _ _ H1). intros url Hin. apply (Hnot url). right. exact Hin.
Qed.

(** With distinct row indices, a row is written at most once, and only
    in the URL column. *)
Lemma verdict_writes_once sn (i : nat) ivs :
  List.NoDup (map fst ivs) ->
  (length (flat_map (verdict_writes sn i) ivs) <= 1)%nat /\
  (~ In i (map fst ivs) -> flat_map (verdict_writes sn i) ivs = []) /\
  Forall (fun w => fst w = get_url_column sn)
         (flat_map (verdict_writes sn i) ivs).
Proof.
  induction ivs as [|[j v] ivs IH]; intros Hnd.
  - simpl. auto.
  - cbn [map fst] in Hnd. apply List.NoDup_cons_iff in Hnd as [Hj Hnd].
    destruct (IH Hnd) as (Hlen & Hnone & Hcol).
    cbn [flat_map map fst]. unfold verdict_writes at 1 3 5. cbn [fst snd].
    destruct v as [|url|]; cbn [app]; try (split; [exact Hlen | split; [| exact Hcol]]);
      try (intros Hn; apply Hnone; intros Hin; apply Hn; right; exact Hin).
    destruct (Nat.eqb_spec j i) as [->|Hne]; cbn [app].
    + rewrite (Hnone Hj). split; [simpl; lia | split].
      * intros Hn. exfalso. apply Hn. left. reflexivity.
      * repeat constructor.
    + split; [exact Hlen | split; [| exact Hcol]].
      intros Hn. apply Hnone. intros Hin. apply Hn. right. exact Hin.
Qed.

Lemma fst_unique {A B} (l : list (A * B)) (a : A) (b b' : B) :
  List.NoDup (map fst l) -> In (a, b) l -> In (a, b') l -> b = b'.
Proof.
  induction l as [|[x y] l IH]; intros Hnd H1 H2; [contradiction |].
  cbn [map fst] in Hnd. apply List.NoDup_cons_iff in Hnd as [Hx Hnd].
  assert (forall c, In (a, c) l -> In a (map fst l)) as Hfst
    by (intros c Hc; apply (in_map fst) in Hc; exact Hc).
  destruct H1 as [H1|H1], H2 as [H2|H2].
  - congruence.
  - injection H1 as -> ->. exfalso. eauto.
  - injection H2 as -> ->. exfalso. eauto.
  - auto.
Qed.

Lemma line_of_inj (i j : nat) : line_of i = line_of j -> i = j.
Proof. unfold line_of. lia. Qed.

Lemma iterrows_indices (df : DataFrame) :
  map fst (iterrows df) = seq 0 (length df).
Proof. unfold iterrows. apply combine_fst_eq. rewrite length_seq. reflexivity. Qed.

Lemma start_locals_length (sn : SocialNetwork) (table : DataFrame) :
  length (data_posts (start_locals sn table)) = length table.
Proof. unfold start_locals, set_column. simpl. apply length_map. Qed.

Section MainFacts.

Variable server : nat -> params -> reply.
Variables API_KEY CSE_ID : pystr.

(** A run that reaches line 179 is the replay of one verdict per row on
    the table with its URL column blanked. *)
Lemma main_ret (sn : SocialNetwork) (table : DataFrame) n t' s ev n' :
  main server API_KEY CSE_ID sn table n = (Ret (t', s), ev, n') ->
  exists vs,
    length vs = length table /\
    verdicts ev = map verdict_line (combine (seq 0 (length table)) vs) /\
    t' = data_posts (replay sn (combine (seq 0 (length table)) vs)
                            (start_locals sn table)) /\
    s = totals (replay sn (combine (seq 0 (length table)) vs)
                       (start_locals sn table)) /\
    forall i,
      writes_to i ev
      = flat_map (verdict_writes sn i) (combine (seq 0 (length table)) vs).
Proof.
  rewrite main_unfold.
  destruct (for_rows _ _ _ _ _ _ _) as [[[l|e] ev1] n1] eqn:E; [| discriminate].
  intros H. injection H as <- <- <- _.
  apply for_rows_ret in E as (vs & Hlen & Hv & Hl & Hw).
  rewrite iterrows_indices, start_locals_length in Hv, Hl, Hw. subst l.
  unfold iterrows in Hlen.
  rewrite length_combine, length_seq, Nat.min_id, start_locals_length in Hlen.
  exists vs. split; [exact Hlen | split; [| split; [reflexivity | split; [reflexivity |]]]].
  - lazymatch goal with
    | |- verdicts (_ :: _ :: ?x) = ?y => change (verdicts x = y)
    end.
    rewrite verdicts_app, Hv. apply app_nil_r.
  - intros i. rewrite <- Hw.
    lazymatch goal with
    | |- writes_to i (_ :: _ :: ?x) = ?y => change (writes_to i x = y)
    end.
    rewrite writes_to_app. apply app_nil_r.
Qed.

(** C1. In every run that reaches the summary, the loop printed exactly
    one of the three per-row lines for each row, in row order; the found
    and skipped totals are the numbers of found and skipped lines; the
    not-found total, computed as total - found - skipped, is the number of
    not-found lines; and the three totals add up to the number of rows. *)
Theorem main_counts_reconcile (sn : SocialNetwork) (table : DataFrame)
  n t' s ev n' :
  main server API_KEY CSE_ID sn table n = (Ret (t', s), ev, n') ->
  map fst (verdicts ev) = map line_of (seq 0 (length table)) /\
  found s = count_if is_found (map snd (verdicts ev)) /\
  skipped s = count_if is_skipped (map snd (verdicts ev)) /\
  not_found s = count_if is_not_found (map snd (verdicts ev)) /\
  found s + skipped s + not_found s = Z.of_nat (length table).
Proof.
  intros H. apply main_ret in H as (vs & Hlen & Hv & _ & -> & _).
  assert (Hseq : length vs = length (seq 0 (length table)))
    by (rewrite length_seq; exact Hlen).
  assert (Hfst : map fst (verdicts ev) = map line_of (seq 0 (length table))).
  { rewrite Hv, map_map. cbn [verdict_line fst].
    rewrite <- (map_map fst line_of), combine_fst_eq by exact Hseq.
    reflexivity. }
  assert (Hsnd : map snd (verdicts ev) = vs).
  { rewrite Hv, map_map. cbn [verdict_line snd].
    apply combine_snd_eq, Hseq. }
  rewrite Hsnd.
  destruct (replay_counts sn (combine (seq 0 (length table)) vs)
              (start_locals sn table)) as [Hf Hs].
  rewrite combine_snd_eq in Hf, Hs by exact Hseq.
  unfold totals. cbn [found skipped not_found].
  rewrite replay_length, start_locals_length, Hf, Hs.
  cbn [start_locals search_success insuficient_text].
  pose proof (count_verdicts vs) as Hc. rewrite Hlen in Hc.
  repeat split; try lia. exact Hfst.
Qed.

(** The two ways through the loop body for a string caption, by the
    length of the query written out: the site fragment, a plus sign, and
    the caption without its characters above U+FFFF. *)
Lemma row_body_cases (sn : SocialNetwork) (index : nat) (r : row)
  (text : pystr) (l : locals) (n : nat) :
  r !! get_text_column sn = Some (CStr text) ->
  let query :=
    get_site_query sn ++ py "+" ++
    List.filter (fun c => (c <=? 65535)%N) text in
  (len query < 200 ->
   row_body server API_KEY CSE_ID sn (index, r) l n
   = (Ret {| data_posts := data_posts l;
             search_success := search_success l;
             insuficient_text := insuficient_text l + 1 |},
      [EvPrint (MsgSkipped (Z.of_nat index + 1) (len query))], n)) /\
  (200 <= len query ->
   exists o ev n',
     row_body server API_KEY CSE_ID sn (index, r) l n
     = (o, EvGet {| q := query; key := API_KEY; cx := CSE_ID; num := 5 |}
           :: ev, n')).
Proof.
  intros Hr query. unfold query. rewrite <- build_query_spelled.
  rewrite row_body_unfold. cbn [fst snd]. rewrite Hr. cbn zeta.
  unfold MIN_TEXT_LENGTH. split; intros H.
  - apply Z.ltb_lt in H. rewrite H. reflexivity.
  - apply Z.ltb_ge in H. rewrite H.
    destruct (google_search_requests server API_KEY CSE_ID
                (build_query sn text) sn 5 5 n) as (o & ev & n' & E); [lia |].
    rewrite E. destruct o as [url|e]; [| eauto].
    destruct (truthy url); cbn [app]; eauto.
Qed.

(** C5. For a row whose caption is the string [text], the row is skipped
    (the skip line is printed, the skip count grows by one, nothing is
    requested and the table is untouched) exactly when the query, which is
    the profile's site fragment, a plus sign and [text] without its
    characters above U+FFFF, is shorter than 200 characters, and a search
    for that query is issued exactly when it is not. At the boundary: a
    caption of 180 letters under the Facebook profile, or of 179 under the
    Instagram profile, makes a query of 199 characters and is skipped; one
    letter more makes a query of 200 characters and is searched. *)
Theorem row_body_threshold (sn : SocialNetwork) (index : nat) (r : row)
  (text : pystr) (l : locals) (n : nat) :
  r !! get_text_column sn = Some (CStr text) ->
  let query :=
    get_site_query sn ++ py "+" ++
    List.filter (fun c => (c <=? 65535)%N) text in
  let p := {| q := query; key := API_KEY; cx := CSE_ID; num := 5 |} in
  let res := row_body server API_KEY CSE_ID sn (index, r) l n in
  let skip :=
    (Ret {| data_posts := data_posts l;
            search_success := search_success l;
            insuficient_text := insuficient_text l + 1 |},
     [EvPrint (MsgSkipped (Z.of_nat index + 1) (len query))], n) in
  (len query < 200 <-> res = skip) /\
  (200 <= len query <-> exists o ev n', res = (o, EvGet p :: ev, n')) /\
  (len query = 199 -> res = skip) /\
  (len query = 200 -> exists o ev n', res = (o, EvGet p :: ev, n')) /\
  (forall r199 : row,
     r199 !! py "Caption" = Some (CStr (repeat 97%N 180)) ->
     row_body server API_KEY CSE_ID FACEBOOK (index, r199) l n
     = (Ret {| data_posts := data_posts l;
               search_success := search_success l;
               insuficient_text := insuficient_text l + 1 |},
        [EvPrint (MsgSkipped (Z.of_nat index + 1) 199)], n)) /\
  (forall r200 : row,
     r200 !! py "Caption" = Some (CStr (repeat 97%N 181)) ->
     exists o ev n',
       row_body server API_KEY CSE_ID FACEBOOK (index, r200) l n
       = (o, EvGet {| q := py "site: facebook.com+" ++ repeat 97%N 181;
                      key := API_KEY; cx := CSE_ID; num := 5 |} :: ev, n')) /\
  (forall r199 : row,
     r199 !! py "Caption" = Some (CStr (repeat 97%N 179)) ->
     row_body server API_KEY CSE_ID INSTAGRAM (index, r199) l n
     = (Ret {| data_posts := data_posts l;
               search_success := search_success l;
               insuficient_text := insuficient_text l + 1 |},
        [EvPrint (MsgSkipped (Z.of_nat index + 1) 199)], n)) /\
  (forall r200 : row,
     r200 !! py "Caption" = Some (CStr (repeat 97%N 180)) ->
     exists o ev n',
       row_body server API_KEY CSE_ID INSTAGRAM (index, r200) l n
       = (o, EvGet {| q := py "site: instagram.com+" ++ repeat 97%N 180;
                      key := API_KEY; cx := CSE_ID; num := 5 |} :: ev, n')).
Proof.
  intros Hr query p res skip.
  destruct (row_body_cases sn index r text l n Hr) as [Hskip Hsearch].
  fold query in Hskip, Hsearch. fold p in Hsearch. fold res in Hskip, Hsearch.
  fold skip in Hskip.
  split; [| split; [| split; [| split; [| split; [| split; [| split]]]]]].
  - split; [exact Hskip |]. intros E.
    destruct (Z.lt_ge_cases (len query) 200) as [H|H]; [exact H |].
    destruct (Hsearch H) as (o & ev & n' & E'). rewrite E in E'.
    unfold skip in E'. discriminate E'.
  - split; [exact Hsearch |]. intros (o & ev & n' & E).
    destruct (Z.lt_ge_cases (len query) 200) as [H|H]; [| exact H].
    rewrite (Hskip H) in E. unfold skip in E. discriminate E.
  - intros H. apply Hskip. lia.
  - intros H. apply Hsearch. lia.
  - intros r199 H.
    destruct (row_body_cases FACEBOOK index r199 _ l n H) as [Hs _].
    apply Hs. reflexivity.
  - intros r200 H.
    destruct (row_body_cases FACEBOOK index r200 _ l n H) as [_ Hs].
    apply Hs. discriminate.
  - intros r199 H.
    destruct (row_body_cases INSTAGRAM index r199 _ l n H) as [Hs _].
    apply Hs. reflexivity.
  - intros r200 H.
    destruct (row_body_cases INSTAGRAM index r200 _ l n H) as [_ Hs].
    apply Hs. discriminate.
Qed.

(** C8. In a run that reaches line 179 the output has the rows of the
    input in the same positions, each with every column other than the
    URL column as in the input; and the loop writes into each row at most
    once, always into the URL column. *)
Theorem main_frame (sn : SocialNetwork) (table : DataFrame) n t' s ev n' :
  main server API_KEY CSE_ID sn table n = (Ret (t', s), ev, n') ->
  length t' = length table /\
  (forall (i : nat) (r : row),
     table !! i = Some r ->
     exists r' : row,
       t' !! i = Some r' /\
       forall col, col <> get_url_column sn -> r' !! col = r !! col) /\
  (forall i : nat,
     (length (writes_to i ev) <= 1)%nat /\
     Forall (fun w => fst w = get_url_column sn) (writes_to i ev)).
Proof.
  intros H. apply main_ret in H as (vs & Hlen & _ & -> & _ & Hw).
  split; [| split].
  - rewrite replay_length. apply start_locals_length.
  - intros i r Hi.
    assert (data_posts (start_locals sn table) !! i
            = Some (<[get_url_column sn := CStr []]> r)) as H0.
    { unfold start_locals, set_column. cbn [data_posts].
      rewrite list_lookup_fmap, Hi. reflexivity. }
    destruct (replay_frame sn (combine (seq 0 (length table)) vs) _ i _ H0)
      as (r' & Hr' & F).
    exists r'. split; [exact Hr' |].
    intros col Hc. rewrite (F col Hc). apply lookup_insert_ne. congruence.
  - intros i. rewrite Hw.
    destruct (verdict_writes_once sn i (combine (seq 0 (length table)) vs))
      as (H1 & _ & H2); [| auto].
    rewrite combine_fst_eq by (rewrite length_seq; exact Hlen).
    apply List.seq_NoDup.
Qed.

(** The run reads its input through the blanked table only. *)
Lemma main_same_reset (sn : SocialNetwork) (table table2 : DataFrame) n :
  set_column (get_url_column sn) (CStr []) table2
  = set_column (get_url_column sn) (CStr []) table ->
  main server API_KEY CSE_ID sn table2 n
  = main server API_KEY CSE_ID sn table n.
Proof.
  intros H. rewrite !main_unfold. unfold start_locals. rewrite H.
  reflexivity.
Qed.

Lemma set_column_lookup (col : pystr) (v : cell) (df : DataFrame)
  (i : nat) (r : row) :
  df !! i = Some r -> set_column col v df !! i = Some (<[col := v]> r).
Proof.
  intros H. unfold set_column.
  change (map (fun r0 : row => <[col := v]> r0) df)
    with ((fun r0 : row => <[col := v]> r0) <$> df).
  rewrite list_lookup_fmap, H. reflexivity.
Qed.

Lemma set_column_same_but (col : pystr) (v : cell) (df1 df2 : DataFrame) :
  Forall2 (same_but col) df1 df2 -> set_column col v df1 = set_column col v df2.
Proof.
  induction 1 as [|r1 r2 df1 df2 Hr _ IH]; [reflexivity |].
  unfold set_column in *. cbn [map]. f_equal; [| exact IH].
  apply map_eq. intros c. destruct (decide (col = c)) as [->|Hne].
  - rewrite !lookup_insert_eq. reflexivity.
  - rewrite !lookup_insert_ne by exact Hne. apply Hr. congruence.
Qed.

(** C9. Line 153 puts the empty string into the URL cell of every row,
    whatever the cell held, and leaves the number of rows as it is; the
    run then depends on the input only through the table so blanked, so
    two inputs that differ in their URL columns only give the same run.
    In a run that reaches line 179, the first thing done is that
    assignment, and every row of the input has its row in the output and
    its line, with the empty string in its URL cell unless the line is a
    found line: every skipped and every not-found row ends with an empty
    URL cell. *)
Theorem main_url_reset (sn : SocialNetwork) (table : DataFrame) n :
  (forall (i : nat) (r : row),
     table !! i = Some r ->
     set_column (get_url_column sn) (CStr []) table !! i
     = Some (<[get_url_column sn := CStr []]> r)) /\
  length (set_column (get_url_column sn) (CStr []) table) = length table /\
  (forall table2 : DataFrame,
     set_column (get_url_column sn) (CStr []) table2
     = set_column (get_url_column sn) (CStr []) table ->
     main server API_KEY CSE_ID sn table2 n
     = main server API_KEY CSE_ID sn table n) /\
  (forall table2 : DataFrame,
     Forall2 (same_but (get_url_column sn)) table2 table ->
     main server API_KEY CSE_ID sn table2 n
     = main server API_KEY CSE_ID sn table n) /\
  (forall t' s ev n',
     main server API_KEY CSE_ID sn table n = (Ret (t', s), ev, n') ->
     (exists ev', ev = EvSetColumn (get_url_column sn) [] :: ev') /\
     (forall (i : nat) (v : verdict),
        In (line_of i, v) (verdicts ev) ->
        is_found v = false ->
        exists r' : row,
          t' !! i = Some r' /\ r' !! get_url_column sn = Some (CStr [])) /\
     (forall (i : nat) (r : row),
        table !! i = Some r ->
        exists r' : row,
          t' !! i = Some r' /\
          (exists v, In (line_of i, v) (verdicts ev)) /\
          ((forall url, ~ In (line_of i, RowFound url) (verdicts ev)) ->
           r' !! get_url_column sn = Some (CStr [])))).
Proof.
  split; [| split; [| split; [| split]]].
  - intros i r. apply set_column_lookup.
  - unfold set_column. apply length_map.
  - intros table2 H. apply main_same_reset, H.
  - intros table2 H. apply main_same_reset, set_column_same_but, H.
  - intros t' s ev n' H. split; [| split].
    { rewrite main_unfold in H.
      destruct (for_rows _ _ _ _ _ _ _) as [[[l|e] ev1] n1]; [| discriminate].
      injection H as _ _ <- _. eauto. }
    + apply main_ret in H as (vs & Hlen & Hv & -> & _ & _).
      intros i v Hin Hnf. rewrite Hv in Hin.
      apply in_map_iff in Hin as ([j w] & Hjw & Hin).
      unfold verdict_line in Hjw. cbn [fst snd] in Hjw.
      injection Hjw as Hj ->. apply line_of_inj in Hj. subst j.
      assert (Hnd : List.NoDup (map fst (combine (seq 0 (length table)) vs))).
      { rewrite combine_fst_eq by (rewrite length_seq; exact Hlen).
        apply List.seq_NoDup. }
      assert (Hi : (i < length table)%nat).
      { apply in_combine_l, in_seq in Hin. lia. }
      destruct (lookup_lt_is_Some_2 table i Hi) as [r Hr].
      pose proof (set_column_lookup (get_url_column sn) (CStr []) _ _ _ Hr)
        as H0.
      destruct (replay_url_kept sn (combine (seq 0 (length table)) vs)
                  (start_locals sn table) i _ H0) as (r' & Hr' & Hu).
      * intros url Hf. rewrite (fst_unique _ _ _ _ Hnd Hin Hf) in Hnf.
        discriminate Hnf.
      * exists r'. split; [exact Hr' |]. rewrite Hu. apply lookup_insert_eq.
    + apply main_ret in H as (vs & Hlen & Hv & -> & _ & _).
      intros i r Hr.
      set (ivs := combine (seq 0 (length table)) vs) in *.
      assert (Hfst : map fst ivs = seq 0 (length table))
        by (apply combine_fst_eq; rewrite length_seq; exact Hlen).
      pose proof (lookup_lt_Some _ _ _ Hr) as Hi.
      pose proof (set_column_lookup (get_url_column sn) (CStr []) _ _ _ Hr)
        as H0.
      assert (Hiv : exists v, In (i, v) ivs).
      { assert (Hin : In i (map fst ivs)) by (rewrite Hfst; apply in_seq; lia).
        apply in_map_iff in Hin as ([j v] & Hj & Hin). cbn in Hj. subst j.
        eauto. }
      destruct Hiv as [v Hin].
      destruct (replay_frame sn ivs (start_locals sn table) i _ H0)
        as (r' & Hr' & _).
      exists r'. split; [exact Hr' | split].
      * exists v. rewrite Hv. apply (in_map verdict_line) in Hin. exact Hin.
      * intros Hnone.
        destruct (replay_url_kept sn ivs (start_locals sn table) i _ H0)
          as (r2 & Hr2 & Hu).
        -- intros url Hf. apply (Hnone url). rewrite Hv.
           apply (in_map verdict_line) in Hf. exact Hf.
        -- rewrite Hr' in Hr2. injection Hr2 as <-. rewrite Hu.
           apply lookup_insert_eq.
Qed.

End MainFacts.

(* ===================================================================== *)
(** ** Runs against a stub endpoint *)
(* ===================================================================== *)

Lemma uniform_lift {A} (o : outcome A) : uniform (lift o).
Proof. exists o, [], 0%nat. intros n. unfold lift. rewrite Nat.add_0_r. reflexivity. Qed.

Lemma uniform_emit (e : event) : uniform (emit e).
Proof. exists (Ret tt), [e], 0%nat. intros n. unfold emit. rewrite Nat.add_0_r. reflexivity. Qed.

Lemma uniform_bind {A B} (m : M A) (k : A -> M B) :
  uniform m -> (forall a, uniform (k a)) -> uniform (bind m k).
Proof.
  intros (r & ev & d & Hm) Hk. destruct r as [a|e].
  - destruct (Hk a) as (r2 & ev2 & d2 & Hk').
    exists r2, (ev ++ ev2), (d + d2)%nat. intros n. unfold bind.
    rewrite Hm, Hk', Nat.add_assoc. reflexivity.
  - exists (Raise e), ev, d. intros n. unfold bind. rewrite Hm. reflexivity.
Qed.

Lemma uniform_try_except {A} (m : M A) (h : Response -> M A) :
  uniform m -> (forall response, uniform (h response)) ->
  uniform (try_except_HTTPError m h).
Proof.
  intros (r & ev & d & Hm) Hh.
  destruct r as [a|e]; [| destruct e as [|response| | | |]];
    try (eexists _, ev, d; intros n; unfold try_except_HTTPError;
         rewrite Hm; reflexivity).
  destruct (Hh response) as (r2 & ev2 & d2 & Hh').
  exists r2, (ev ++ ev2), (d + d2)%nat. intros n. unfold try_except_HTTPError.
  rewrite Hm, Hh', Nat.add_assoc. reflexivity.
Qed.

Ltac uniform_step :=
  first [ apply uniform_lift | apply uniform_emit
        | apply uniform_bind; [| intros ?] ].

Section Stub.

Variable server : nat -> params -> reply.
Variables API_KEY CSE_ID : pystr.
Hypothesis stub : deterministic server.

Lemma uniform_requests_get p : uniform (requests_get server p).
Proof.
  exists (match server 0%nat p with
          | NoConnection => Raise ConnectionError
          | Reply response => Ret response
          end), [EvGet p], 1%nat.
  intros n. unfold requests_get. rewrite (stub n 0%nat p), Nat.add_1_r.
  destruct (server 0%nat p); reflexivity.
Qed.

Lemma uniform_attempt_body p sn attempt :
  uniform (attempt_body server p sn attempt).
Proof.
  unfold attempt_body. apply uniform_try_except.
  - apply uniform_bind; [apply uniform_requests_get | intros response].
    apply uniform_bind; [| intros _].
    + unfold raise_for_status. destruct (http_error response); apply uniform_lift.
    + apply uniform_bind; [| intros search_results].
      * unfold json. destruct (content response); apply uniform_lift.
      * repeat uniform_step.
  - intros response. destruct (status_code response =? 429);
      unfold print, sleep; repeat uniform_step.
Qed.

Lemma uniform_for_attempts p sn attempts :
  uniform (for_attempts server p sn attempts).
Proof.
  induction attempts as [|attempt rest IH]; cbn [for_attempts].
  - apply uniform_lift.
  - apply uniform_bind; [apply uniform_attempt_body | intros [v|]].
    + apply uniform_lift.
    + exact IH.
Qed.

Lemma uniform_row_body sn ir l :
  uniform (row_body server API_KEY CSE_ID sn ir l).
Proof.
  unfold row_body. apply uniform_bind; [| intros cell_text].
  { unfold getitem. destruct (_ !! _); apply uniform_lift. }
  apply uniform_bind; [| intros text].
  { unfold as_text. destruct cell_text; apply uniform_lift. }
  cbn zeta. destruct (_ <? _); unfold print.
  - repeat uniform_step.
  - apply uniform_bind; [apply uniform_for_attempts | intros url].
    destruct (truthy url); repeat uniform_step.
Qed.

Lemma uniform_for_rows sn irs l :
  uniform (for_rows server API_KEY CSE_ID sn irs l).
Proof.
  revert l. induction irs as [|ir rest IH]; intros l; cbn [for_rows].
  - apply uniform_lift.
  - apply uniform_bind; [apply uniform_row_body | intros l'; apply IH].
Qed.

Lemma uniform_main (sn : SocialNetwork) (table : DataFrame) :
  uniform (main server API_KEY CSE_ID sn table).
Proof.
  unfold main, print. apply uniform_bind; [apply uniform_emit | intros _].
  cbn zeta. apply uniform_bind; [apply uniform_emit | intros _].
  apply uniform_bind; [apply uniform_for_rows | intros l].
  repeat uniform_step.
Qed.

(** C7. Against a stub that answers each request by its content alone, a
    run over the table that an earlier run produced returns the same
    table and the same totals, and emits the same events, as that earlier
    run. *)
Theorem main_idempotent (sn : SocialNetwork) (table : DataFrame)
  n t' s ev n' :
  main server API_KEY CSE_ID sn table n = (Ret (t', s), ev, n') ->
  forall m,
    main server API_KEY CSE_ID sn t' m = (Ret (t', s), ev, (m + (n' - n))%nat).
Proof.
  intros H m.
  assert (Hsame : main server API_KEY CSE_ID sn t' m
                  = main server API_KEY CSE_ID sn table m).
  { apply main_same_reset.
    destruct (main_ret _ _ _ _ _ _ _ _ _ _ H) as (vs & _ & _ & -> & _).
    rewrite replay_set_column. unfold start_locals. cbn [data_posts].
    apply set_column_twice. }
  rewrite Hsame.
  destruct (uniform_main sn table) as (r & ev0 & d & Hu).
  rewrite Hu in H. injection H as -> -> <-. rewrite Hu.
  replace (n + d - n)%nat with d by lia. reflexivity.
Qed.

End Stub.

(* ===================================================================== *)
(** ** Runs that reach the summary *)
(* ===================================================================== *)

Lemma text_column_not_url (sn : SocialNetwork) :
  get_url_column sn <> get_text_column sn.
Proof. destruct sn; discriminate. Qed.

Section Completion.

Variable server : nat -> params -> reply.
Variables API_KEY CSE_ID : pystr.
Hypothesis answers : forall m p, digestible (server m p) = true.

Lemma for_rows_returns (sn : SocialNetwork) (irs : list (nat * row))
  (l : locals) (n : nat) :
  Forall (fun ir : nat * row =>
            exists text, snd ir !! get_text_column sn = Some (CStr text)) irs ->
  exists l' ev n',
    for_rows server API_KEY CSE_ID sn irs l n = (Ret l', ev, n').
Proof.
  intros H. revert l n. induction H as [|ir rest [text Hir] _ IH]; intros l n.
  - cbn. eauto.
  - cbn [for_rows]. unfold bind. rewrite row_body_unfold, Hir. cbn zeta.
    destruct (_ <? _).
    + destruct (IH (apply_verdict sn l (fst ir, RowSkipped)) n)
        as (l' & ev & n' & ->). eauto.
    + unfold google_search.
      destruct (for_attempts_returns server
                  {| q := build_query sn text; key := API_KEY; cx := CSE_ID;
                     num := 5 |} sn (range 5) n answers)
        as (url & ev1 & n1 & -> & _).
      destruct (truthy url).
      * destruct (IH (apply_verdict sn l (fst ir, RowFound url)) n1)
          as (l' & ev & n' & ->). eauto.
      * destruct (IH l n1) as (l' & ev & n' & ->). eauto.
Qed.

(** X18. When every caption is a string, every request is answered, and
    every response whose status is not an error has a body that is a JSON
    object whose items are absent or an array of objects that each have a
    string link, the run raises nothing and reaches line 179. *)
Lemma main_returns (sn : SocialNetwork) (table : DataFrame) (n : nat) :
  Forall (fun r : row =>
            exists text, r !! get_text_column sn = Some (CStr text)) table ->
  exists t' s ev n',
    main server API_KEY CSE_ID sn table n = (Ret (t', s), ev, n').
Proof.
  intros H. rewrite main_unfold.
  destruct (for_rows_returns sn
              (iterrows (data_posts (start_locals sn table)))
              (start_locals sn table) n) as (l' & ev & n' & ->); [| eauto].
  unfold iterrows, start_locals, set_column. cbn [data_posts].
  rewrite length_map. generalize 0%nat as k.
  induction H as [|r rest [text Hr] _ IH]; intros k; cbn; constructor.
  - exists text. cbn. rewrite lookup_insert_ne by apply text_column_not_url.
    exact Hr.
  - apply IH.
Qed.

End Completion.

(* ===================================================================== *)
(** ** The sample run *)
(* ===================================================================== *)

Lemma server_cats_deterministic : deterministic server_cats.
Proof. intros n m p. reflexivity. Qed.

(** The end-to-end scenario: one row skipped, one found, one not found. *)
Lemma sample_run :
  main server_cats (py "k") (py "c") FACEBOOK sample_table 0%nat
  = (Ret (sample_output, sample_totals), sample_events, 2%nat).
Proof. vm_compute. reflexivity. Qed.

Example sample_verdicts :
  verdicts sample_events
  = [(1, RowSkipped);
     (2, RowFound (py "https://www.facebook.com/posts/123"));
     (3, RowNotFound)].
Proof. vm_compute. reflexivity. Qed.

(** Queries of 199 and of 200 characters. *)
Example query_199_skipped :
  len (build_query FACEBOOK (repeat 97%N 180)) = 199 /\
  row_body server_cats (py "k") (py "c") FACEBOOK
    (7%nat, sample_row (repeat 97%N 180) [] []) (start_locals FACEBOOK []) 0%nat
  = (Ret {| data_posts := []; search_success := 0; insuficient_text := 1 |},
     [EvPrint (MsgSkipped 8 199)], 0%nat).
Proof. split; vm_compute; reflexivity. Qed.

Example query_200_searched :
  len (build_query FACEBOOK (repeat 97%N 181)) = 200 /\
  row_body server_cats (py "k") (py "c") FACEBOOK
    (7%nat, sample_row (repeat 97%N 181) [] []) (start_locals FACEBOOK []) 0%nat
  = (Ret (start_locals FACEBOOK []),
     [EvGet {| q := build_query FACEBOOK (repeat 97%N 181);
               key := py "k"; cx := py "c"; num := 5 |};
      EvPrint (MsgNotFound 8)], 1%nat).
Proof. split; vm_compute; reflexivity. Qed.

Lemma main_counts_reconcile_witness :
  map fst (verdicts sample_events) = map line_of (seq 0 (length sample_table)) /\
  found sample_totals = count_if is_found (map snd (verdicts sample_events)) /\
  skipped sample_totals
  = count_if is_skipped (map snd (verdicts sample_events)) /\
  not_found sample_totals
  = count_if is_not_found (map snd (verdicts sample_events)) /\
  found sample_totals + skipped sample_totals + not_found sample_totals
  = Z.of_nat (length sample_table).
Proof.
  exact (main_counts_reconcile server_cats (py "k") (py "c") FACEBOOK
           sample_table 0%nat sample_output sample_totals sample_events 2%nat
           sample_run).
Defined.

Lemma row_body_threshold_witness :
  let query :=
    get_site_query FACEBOOK ++ py "+" ++
    List.filter (fun c => (c <=? 65535)%N) short_caption in
  let p := {| q := query; key := py "k"; cx := py "c"; num := 5 |} in
  let res :=
    row_body server_cats (py "k") (py "c") FACEBOOK
      (0%nat, sample_row short_caption (py "1") (py "stale"))
      (start_locals FACEBOOK sample_table) 0%nat in
  let skip :=
    (Ret {| data_posts := data_posts (start_locals FACEBOOK sample_table);
            search_success := 0;
            insuficient_text := 0 + 1 |},
     [EvPrint (MsgSkipped (Z.of_nat 0 + 1) (len query))], 0%nat) in
  ((len query < 200 <-> res = skip) /\
   (200 <= len query <-> exists o ev n', res = (o, EvGet p :: ev, n'))) /\
  row_body server_cats (py "k") (py "c") FACEBOOK
    (0%nat, sample_row (repeat 97%N 180) [] [])
    (start_locals FACEBOOK sample_table) 0%nat
  = (Ret {| data_posts := data_posts (start_locals FACEBOOK sample_table);
            search_success := 0;
            insuficient_text := 0 + 1 |},
     [EvPrint (MsgSkipped (Z.of_nat 0 + 1) 199)], 0%nat) /\
  exists o ev n',
    row_body server_cats (py "k") (py "c") FACEBOOK
      (0%nat, sample_row (repeat 97%N 181) [] [])
      (start_locals FACEBOOK sample_table) 0%nat
    = (o, EvGet {| q := py "site: facebook.com+" ++ repeat 97%N 181;
                   key := py "k"; cx := py "c"; num := 5 |} :: ev, n').
Proof.
  assert (Hcap : sample_row short_caption (py "1") (py "stale")
                 !! get_text_column FACEBOOK = Some (CStr short_caption))
    by (vm_compute; reflexivity).
  destruct (row_body_threshold server_cats (py "k") (py "c") FACEBOOK 0%nat
              (sample_row short_caption (py "1") (py "stale")) short_caption
              (start_locals FACEBOOK sample_table) 0%nat Hcap)
    as (H1 & H2 & _ & _ & H199 & H200 & _ & _).
  split; [split; [exact H1 | exact H2] | split].
  - apply H199. vm_compute. reflexivity.
  - apply H200. vm_compute. reflexivity.
Defined.

Lemma main_frame_witness :
  length sample_output = length sample_table /\
  (forall (i : nat) (r : row),
     sample_table !! i = Some r ->
     exists r' : row,
       sample_output !! i = Some r' /\
       forall col, col <> get_url_column FACEBOOK -> r' !! col = r !! col) /\
  (forall i : nat,
     (length (writes_to i sample_events) <= 1)%nat /\
     Forall (fun w => fst w = get_url_column FACEBOOK)
            (writes_to i sample_events)).
Proof.
  exact (main_frame server_cats (py "k") (py "c") FACEBOOK sample_table 0%nat
           sample_output sample_totals sample_events 2%nat sample_run).
Defined.

Lemma main_url_reset_witness :
  set_column (get_url_column FACEBOOK) (CStr []) sample_table !! 1%nat
  = Some (<[get_url_column FACEBOOK := CStr []]>
            (sample_row cats_caption (py "2") (py "stale"))) /\
  main server_cats (py "k") (py "c") FACEBOOK sample_output 0%nat
  = main server_cats (py "k") (py "c") FACEBOOK sample_table 0%nat /\
  (exists ev',
     sample_events = EvSetColumn (get_url_column FACEBOOK) [] :: ev') /\
  (exists r' : row,
     sample_output !! 2%nat = Some r' /\
     r' !! get_url_column FACEBOOK = Some (CStr [])) /\
  (exists r' : row,
     sample_output !! 0%nat = Some r' /\
     (exists v, In (line_of 0, v) (verdicts sample_events)) /\
     ((forall url, ~ In (line_of 0, RowFound url) (verdicts sample_events)) ->
      r' !! get_url_column FACEBOOK = Some (CStr []))).
Proof.
  destruct (main_url_reset server_cats (py "k") (py "c") FACEBOOK sample_table
              0%nat) as (Hset & _ & Hin & _ & Hout).
  destruct (Hout sample_output sample_totals sample_events 2%nat sample_run)
    as (Hfirst & Hline & Hrow).
  split; [| split; [| split; [| split]]].
  - apply Hset. reflexivity.
  - apply (Hin sample_output). vm_compute. reflexivity.
  - exact Hfirst.
  - apply (Hline 2%nat RowNotFound); [| reflexivity].
    vm_compute. right. right. left. reflexivity.
  - apply (Hrow 0%nat (sample_row short_caption (py "1") (py "stale"))).
    reflexivity.
Defined.

Lemma main_idempotent_witness :
  main server_cats (py "k") (py "c") FACEBOOK sample_output 2%nat
  = (Ret (sample_output, sample_totals), sample_events, (2 + (2 - 0))%nat).
Proof.
  exact (main_idempotent server_cats (py "k") (py "c")
           server_cats_deterministic FACEBOOK sample_table 0%nat
           sample_output sample_totals sample_events 2%nat sample_run 2%nat).
Defined.

(* ===================================================================== *)
(** ** The search client: requests, waits and exceptions *)
(* ===================================================================== *)

Lemma requests_of_app ev1 ev2 :
  requests_of (ev1 ++ ev2) = requests_of ev1 ++ requests_of ev2.
Proof. apply omap_app. Qed.

Lemma sleeps_of_app ev1 ev2 :
  sleeps_of (ev1 ++ ev2) = sleeps_of ev1 ++ sleeps_of ev2.
Proof. apply omap_app. Qed.

Lemma sum_app (l1 l2 : list Z) :
  fold_right Z.add 0 (l1 ++ l2) = fold_right Z.add 0 l1 + fold_right Z.add 0 l2.
Proof. induction l1 as [|a l1 IH]; simpl; [reflexivity | rewrite IH; lia]. Qed.

Lemma total_sleep_app ev1 ev2 :
  total_sleep (ev1 ++ ev2) = total_sleep ev1 + total_sleep ev2.
Proof. unfold total_sleep. rewrite sleeps_of_app. apply sum_app. Qed.

(** [2^0 + 2^1 + ... + 2^(k-1) = 2^k - 1] *)
Lemma sum_backoff (k : nat) :
  fold_right Z.add 0 (map (fun attempt => 2 ^ attempt) (range (Z.of_nat k)))
  = 2 ^ Z.of_nat k - 1.
Proof.
  rewrite range_of_nat. induction k as [|k IH]; [reflexivity |].
  rewrite seq_S, !map_app, sum_app, IH. cbn [map fold_right Nat.add].
  rewrite Nat2Z.inj_succ, Z.pow_succ_r by lia. lia.
Qed.

Lemma range_prefix (m : nat) (pre rest : list Z) :
  pre ++ rest = range (Z.of_nat m) -> pre = range (Z.of_nat (length pre)).
Proof.
  rewrite !range_of_nat. generalize 0%nat as a. revert m.
  induction pre as [|x pre IH]; intros m a H; [reflexivity |].
  destruct m as [|m]; [discriminate |]. cbn in H. injection H as -> H.
  cbn. f_equal. eapply IH, H.
Qed.

Section SearchTraces.

Variable server : nat -> params -> reply.
Variables API_KEY CSE_ID : pystr.

(** The attempts of one search: some rate-limited ones, each followed by
    its wait, and then at most one more request. *)
Lemma for_attempts_trace p sn attempts n r ev n' :
  for_attempts server p sn attempts n = (r, ev, n') ->
  exists pre rest,
    attempts = pre ++ rest /\
    sleeps_of ev = map (fun attempt => 2 ^ attempt) pre /\
    requests_of ev = repeat p (n' - n) /\
    (n <= n')%nat /\
    (length pre <= n' - n)%nat /\
    (n' - n <= length attempts)%nat.
Proof.
  revert n r ev n'. induction attempts as [|attempt tl IH]; intros n r ev n'.
  - cbn. intros H. injection H as _ <- <-. exists [], [].
    rewrite Nat.sub_diag. cbn. repeat split; lia.
  - cbn [for_attempts]. unfold bind. rewrite attempt_body_unfold.
    assert (Hone : forall (o : outcome pystr) (tail : list event),
              sleeps_of (EvGet p :: tail) = [] ->
              requests_of (EvGet p :: tail) = [p] ->
              (o, EvGet p :: tail, S n) = (r, ev, n') ->
              exists pre rest,
                attempt :: tl = pre ++ rest /\
                sleeps_of ev = map (fun a => 2 ^ a) pre /\
                requests_of ev = repeat p (n' - n) /\
                (n <= n')%nat /\ (length pre <= n' - n)%nat /\
                (n' - n <= length (attempt :: tl))%nat).
    { intros o tail Hs Hq H. injection H as _ <- <-.
      exists [], (attempt :: tl). rewrite Hs, Hq.
      replace (S n - n)%nat with 1%nat by lia. cbn. repeat split; lia. }
    destruct (server n p) as [|response]; [apply (Hone _ []); reflexivity |].
    destruct (http_error response).
    + destruct (status_code response =? 429).
      * destruct (for_attempts server p sn tl (S n)) as [[r1 ev1] n1] eqn:E.
        intros H. injection H as _ <- <-.
        apply IH in E as (pre & rest & -> & Hs & Hq & Hle & Hpre & Hlen).
        exists (attempt :: pre), rest.
        replace (n1 - n)%nat with (S (n1 - S n)) by lia.
        unfold sleeps_of, requests_of in *. cbn -[Z.pow]. rewrite Hs, Hq.
        repeat split; lia.
      * apply (Hone _ [_]); reflexivity.
    + destruct (body_links sn (content response));
        apply (Hone _ []); reflexivity.
Qed.

Lemma google_search_trace query sn max_results retries n r ev n' :
  google_search server API_KEY CSE_ID query sn max_results retries n
  = (r, ev, n') ->
  let p := {| q := query; key := API_KEY; cx := CSE_ID; num := max_results |} in
  (n <= n')%nat /\
  requests_of ev = repeat p (n' - n) /\
  (n' - n <= Z.to_nat retries)%nat /\
  exists k : nat,
    (k <= n' - n)%nat /\
    sleeps_of ev = map (fun attempt => 2 ^ attempt) (range (Z.of_nat k)) /\
    total_sleep ev = 2 ^ Z.of_nat k - 1 /\
    total_sleep ev <= 2 ^ Z.max 0 retries - 1.
Proof.
  intros H p. unfold google_search in H. fold p in H.
  apply for_attempts_trace in H as (pre & rest & Hsplit & Hs & Hq & Hle & Hpre & Hlen).
  assert (Hr : range retries = range (Z.of_nat (Z.to_nat retries)))
    by (unfold range; rewrite Nat2Z.id; reflexivity).
  rewrite Hr in Hsplit, Hlen. rewrite length_range in Hlen.
  symmetry in Hsplit. apply range_prefix in Hsplit.
  split; [exact Hle | split; [exact Hq | split; [exact Hlen |]]].
  exists (length pre). rewrite <- Hsplit.
  assert (Ht : total_sleep ev = 2 ^ Z.of_nat (length pre) - 1).
  { unfold total_sleep. rewrite Hs, Hsplit at 1. apply sum_backoff. }
  split; [exact Hpre | split; [exact Hs | split; [exact Ht |]]].
  rewrite Ht. apply Z.sub_le_mono_r, Z.pow_le_mono_r; lia.
Qed.

(** X1. One search issues at most [retries] requests, all for the same
    parameters; its waits are [2^0, 2^1, ...] in this order, one after
    each rate-limited request, so they add up to less than [2^retries]
    seconds (31 seconds at most for the five attempts [main] allows). *)
Theorem google_search_budget query sn max_results retries n r ev n' :
  google_search server API_KEY CSE_ID query sn max_results retries n
  = (r, ev, n') ->
  let p := {| q := query; key := API_KEY; cx := CSE_ID; num := max_results |} in
  (n <= n')%nat /\
  requests_of ev = repeat p (n' - n) /\
  (n' - n <= Z.to_nat retries)%nat /\
  exists k : nat,
    (k <= n' - n)%nat /\
    sleeps_of ev = map (fun attempt => 2 ^ attempt) (range (Z.of_nat k)) /\
    total_sleep ev = 2 ^ Z.of_nat k - 1 /\
    total_sleep ev <= 2 ^ Z.max 0 retries - 1.
Proof. apply google_search_trace. Qed.

Lemma for_attempts_raise p sn attempts n e ev n' :
  for_attempts server p sn attempts n = (Raise e, ev, n') ->
  search_exception e /\ exists ev0, ev = ev0 ++ [EvGet p].
Proof.
  unfold search_exception.
  revert n ev n'. induction attempts as [|attempt tl IH]; intros n ev n'.
  - discriminate.
  - cbn [for_attempts]. unfold bind. rewrite attempt_body_unfold.
    destruct (server n p) as [|response].
    + intros H. injection H as <- <- _. split; [auto | exists []; reflexivity].
    + destruct (http_error response).
      * destruct (status_code response =? 429); [| discriminate].
        destruct (for_attempts server p sn tl (S n)) as [[r1 ev1] n1] eqn:E.
        intros H. injection H as -> <- _.
        apply IH in E as (He & ev0 & ->). split; [exact He |].
        exists (backoff_events p [attempt] ++ ev0). reflexivity.
      * destruct (body_links sn (content response)) as [link|e1] eqn:E;
          [discriminate |].
        intros H. injection H as <- <- _.
        apply body_links_raise in E.
        split; [tauto | exists []; reflexivity].
Qed.

Lemma search_exception_not_http (e : exn) :
  search_exception e -> forall response, e <> HTTPError response.
Proof.
  intros [->|[->|[->|[->| ->]]]] response; discriminate.
Qed.

(** X2. The exception of a status error never leaves the search; and
    whatever exception does leave it is raised while the last request made
    is handled, so that no retry, notice or wait follows it. *)
Theorem google_search_raise_kinds query sn max_results retries n e ev n' :
  google_search server API_KEY CSE_ID query sn max_results retries n
  = (Raise e, ev, n') ->
  (forall response, e <> HTTPError response) /\
  exists ev0,
    ev = ev0 ++ [EvGet {| q := query; key := API_KEY; cx := CSE_ID;
                          num := max_results |}].
Proof.
  intros H. apply for_attempts_raise in H as [He Hev].
  split; [apply search_exception_not_http, He | exact Hev].
Qed.

Lemma for_attempts_ret p sn attempts n url ev n' :
  for_attempts server p sn attempts n = (Ret url, ev, n') ->
  url = [] \/ accepted sn url = true.
Proof.
  revert n ev n'. induction attempts as [|attempt tl IH]; intros n ev n'.
  - cbn. intros H. injection H as <- _ _. left. reflexivity.
  - cbn [for_attempts]. unfold bind. rewrite attempt_body_unfold.
    destruct (server n p) as [|response]; [discriminate |].
    destruct (http_error response).
    + destruct (status_code response =? 429).
      * destruct (for_attempts server p sn tl (S n)) as [[r1 ev1] n1] eqn:E.
        intros H. injection H as -> _ _. eapply IH, E.
      * intros H. injection H as <- _ _. left. reflexivity.
    + destruct (body_links sn (content response)) as [link|e1] eqn:E;
        [| discriminate].
      intros H. injection H as <- _ _. eapply body_links_ret, E.
Qed.

Lemma accepted_nonempty sn : accepted sn [] = false.
Proof. destruct sn; reflexivity. Qed.

(** X3. Whatever string the search returns, it is non-empty (what [main]
    tests with [if url]) exactly when it is a link that passes the
    profile's test; the empty string is the only other result. *)
Theorem google_search_result query sn max_results retries n url ev n' :
  google_search server API_KEY CSE_ID query sn max_results retries n
  = (Ret url, ev, n') ->
  truthy url = accepted sn url /\ (url = [] \/ accepted sn url = true).
Proof.
  intros H. apply for_attempts_ret in H. split; [| exact H].
  destruct H as [->|H].
  - rewrite accepted_nonempty. reflexivity.
  - rewrite H. apply (accepted_truthy sn), H.
Qed.

End SearchTraces.

(* ===================================================================== *)
(** ** The row loop: requests, waits and exceptions *)
(* ===================================================================== *)

Lemma count_if_app {A} (f : A -> bool) (l1 l2 : list A) :
  count_if f (l1 ++ l2) = count_if f l1 + count_if f l2.
Proof.
  induction l1 as [|x l1 IH]; [reflexivity |].
  cbn [app]. rewrite !count_if_cons, IH. lia.
Qed.

Lemma count_if_nonneg {A} (f : A -> bool) (l : list A) : 0 <= count_if f l.
Proof. unfold count_if. lia. Qed.

Lemma searched_app ev1 ev2 : searched (ev1 ++ ev2) = searched ev1 + searched ev2.
Proof. unfold searched. rewrite verdicts_app, map_app. apply count_if_app. Qed.

Lemma count_searched (vs : list verdict) :
  count_if (fun v => negb (is_skipped v)) vs
  = count_if is_found vs + count_if is_not_found vs.
Proof.
  induction vs as [|v vs IH]; [reflexivity |].
  rewrite !count_if_cons, IH. destruct v; simpl; lia.
Qed.

Ltac splits := repeat match goal with |- _ /\ _ => split end.

Section RunFacts.

Variable server : nat -> params -> reply.
Variables API_KEY CSE_ID : pystr.

(** What one pass through the loop body costs and leaves behind. *)
Lemma row_body_account (sn : SocialNetwork) (ir : nat * row) (l : locals)
  n r ev n' :
  row_body server API_KEY CSE_ID sn ir l n = (r, ev, n') ->
  (n <= n')%nat /\
  length (requests_of ev) = (n' - n)%nat /\
  Forall (sent_by API_KEY CSE_ID sn [snd ir]) (requests_of ev) /\
  Z.of_nat (n' - n) <= 5 * (searched ev + raised r) /\
  0 <= total_sleep ev <= 31 * (searched ev + raised r) /\
  match r with
  | Ret _ =>
      has_caption sn (snd ir) /\
      exists v, verdicts ev = [(line_of (fst ir), v)] /\
        found_accepted sn (line_of (fst ir), v)
  | Raise e => verdicts ev = [] /\ loop_exception sn e
  end.
Proof.
  rewrite row_body_unfold. unfold loop_exception.
  destruct (snd ir !! get_text_column sn) as [[text|]|] eqn:Hcap.
  - cbn zeta. destruct (len (build_query sn text) <? MIN_TEXT_LENGTH) eqn:Hlen.
    + intros H. injection H as <- <- <-. rewrite Nat.sub_diag.
      change (searched [_]) with 0. change (total_sleep [_]) with 0.
      splits; try (cbn; lia); try constructor.
      * exists text. exact Hcap.
      * exists RowSkipped. split; [reflexivity | intros url; discriminate].
    + destruct (google_search _ _ _ _ _ _ _ _) as [[o ev1] n1] eqn:E.
      pose proof (google_search_events _ _ _ _ _ _ _ _ _ _ _ E) as Hev.
      apply search_events_silent in Hev as [Hv _].
      destruct (google_search_trace _ _ _ _ _ _ _ _ _ _ _ E)
        as (Hle & Hq & Hn & k & _ & _ & Hk & Hsl).
      change (Z.to_nat 5) with 5%nat in Hn.
      change (2 ^ Z.max 0 5 - 1) with 31 in Hsl.
      assert (Hk0 : 0 <= total_sleep ev1)
        by (rewrite Hk; pose proof (Z.pow_pos_nonneg 2 (Z.of_nat k)); lia).
      assert (Hsent : Forall (sent_by API_KEY CSE_ID sn [snd ir])
                             (requests_of ev1)).
      { rewrite Hq. apply List.Forall_forall. intros x Hx.
        apply repeat_spec in Hx. subst x. unfold sent_by. cbn [q key cx num].
        apply Z.ltb_ge in Hlen. splits; auto.
        exists (snd ir), text. splits; auto; [left; reflexivity |].
        apply build_query_spelled. }
      assert (Hlenq : length (requests_of ev1) = (n1 - n)%nat)
        by (rewrite Hq; apply repeat_length).
      assert (Hs0 : searched ev1 = 0) by (unfold searched; rewrite Hv; reflexivity).
      destruct o as [url|e].
      * pose proof (for_attempts_ret _ _ _ _ _ _ _ _ E) as Hacc.
        destruct (truthy url) eqn:Ht; intros H; injection H as <- <- <-;
          rewrite requests_of_app, total_sleep_app, searched_app, Hs0,
            verdicts_app, Hv, app_nil_r.
        -- change (searched [_; _]) with 1. change (total_sleep [_; _]) with 0.
           cbn [raised app].
           splits; try lia; auto; [exists text; exact Hcap |].
           exists (RowFound url). split; [reflexivity |].
           intros u Hu. injection Hu as <-.
           destruct Hacc as [->|Hacc]; [discriminate Ht | exact Hacc].
        -- change (searched [_]) with 1. change (total_sleep [_]) with 0.
           cbn [raised app].
           splits; try lia; auto; [exists text; exact Hcap |].
           exists RowNotFound. split; [reflexivity | intros u; discriminate].
      * intros H. injection H as <- <- <-. rewrite Hs0. cbn [raised].
        apply for_attempts_raise in E as [He _].
        splits; try lia; auto.
  - intros H. injection H as <- <- <-. rewrite Nat.sub_diag.
    change (searched []) with 0. change (total_sleep []) with 0.
    cbn [raised]. splits; try lia; try reflexivity; [constructor |].
    right. unfold search_exception. tauto.
  - intros H. injection H as <- <- <-. rewrite Nat.sub_diag.
    change (searched []) with 0. change (total_sleep []) with 0.
    cbn [raised]. splits; try lia; try reflexivity; [constructor | auto].
Qed.

Lemma sent_by_weaken (sn : SocialNetwork) (rows rows' : list row)
  (p : params) :
  (forall r : row, In r rows -> In r rows') ->
  sent_by API_KEY CSE_ID sn rows p -> sent_by API_KEY CSE_ID sn rows' p.
Proof.
  intros Hsub (Hk & Hc & Hn & Hl & r & text & Hin & Hr & Hq).
  unfold sent_by. splits; auto. exists r, text. auto.
Qed.

(** The loop, whatever its outcome: what it requested and waited for, the
    lines it printed, and where it stopped. *)
Lemma for_rows_account (sn : SocialNetwork) (irs : list (nat * row))
  (l : locals) n r ev n' :
  for_rows server API_KEY CSE_ID sn irs l n = (r, ev, n') ->
  (n <= n')%nat /\
  length (requests_of ev) = (n' - n)%nat /\
  Forall (sent_by API_KEY CSE_ID sn (map snd irs)) (requests_of ev) /\
  Z.of_nat (n' - n) <= 5 * (searched ev + raised r) /\
  0 <= total_sleep ev <= 31 * (searched ev + raised r) /\
  Forall (found_accepted sn) (verdicts ev) /\
  exists done rest,
    irs = done ++ rest /\
    map fst (verdicts ev) = map (fun ir => line_of (fst ir)) done /\
    match r with
    | Ret _ => rest = [] /\ Forall (fun ir => has_caption sn (snd ir)) irs
    | Raise e => rest <> [] /\ loop_exception sn e
    end.
Proof.
  revert l n r ev n'. induction irs as [|ir tl IH]; intros l n r ev n'.
  - cbn. intros H. injection H as <- <- <-. rewrite Nat.sub_diag.
    change (searched []) with 0. change (total_sleep []) with 0.
    cbn [raised]. splits; try lia; try constructor.
    exists [], []. splits; auto.
  - cbn [for_rows]. unfold bind.
    destruct (row_body _ _ _ _ _ _ _) as [[r1 ev1] n1] eqn:E1.
    apply row_body_account in E1
      as (Hle1 & Hq1 & Hs1 & Hb1 & [Ht1 Ht1'] & Hr1).
    assert (Hs1' : Forall (sent_by API_KEY CSE_ID sn (map snd (ir :: tl)))
                          (requests_of ev1)).
    { eapply List.Forall_impl; [| exact Hs1]. intros p. apply sent_by_weaken.
      intros r0 [<-|[]]. left. reflexivity. }
    destruct r1 as [l1|e].
    + destruct Hr1 as (Hcap & v & Hv & Hacc).
      destruct (for_rows _ _ _ _ _ _ _) as [[r2 ev2] n2] eqn:E2.
      apply IH in E2
        as (Hle2 & Hq2 & Hs2 & Hb2 & [Ht2 Ht2'] & Hf2 & done & rest & -> & Hd & Hr2).
      intros H. injection H as <- <- <-. cbn [raised] in *.
      rewrite requests_of_app, length_app, searched_app, total_sleep_app,
        verdicts_app, Hv.
      splits; try lia.
      * apply Forall_app. split; [exact Hs1' |].
        eapply List.Forall_impl; [| exact Hs2]. intros p. apply sent_by_weaken.
        intros r0 Hin. right. exact Hin.
      * constructor; [exact Hacc | exact Hf2].
      * exists (ir :: done), rest. cbn [app map fst]. rewrite Hd.
        splits; auto.
        destruct r2 as [l2|e]; [| exact Hr2].
        destruct Hr2 as [-> Hall]. split; [reflexivity |].
        constructor; [exact Hcap | exact Hall].
    + destruct Hr1 as [Hv He].
      intros H. injection H as <- <- <-.
      splits; try lia; auto.
      * rewrite Hv. constructor.
      * exists [], (ir :: tl). rewrite Hv. splits; auto; discriminate.
Qed.

End RunFacts.

(* ===================================================================== *)
(** ** Whole runs *)
(* ===================================================================== *)

Lemma seq_prefix (a m : nat) (pre rest : list nat) :
  pre ++ rest = seq a m -> pre = seq a (length pre).
Proof.
  revert a m. induction pre as [|x pre IH]; intros a m H; [reflexivity |].
  destruct m as [|m]; [discriminate |]. cbn in H. injection H as -> H.
  cbn. f_equal. eapply IH, H.
Qed.

Lemma count_if_le_length {A} (f : A -> bool) (l : list A) :
  count_if f l <= Z.of_nat (length l).
Proof.
  induction l as [|x l IH]; [reflexivity |].
  rewrite count_if_cons. cbn [length]. destruct (f x); lia.
Qed.

Lemma start_rows (sn : SocialNetwork) (table : DataFrame) :
  map snd (iterrows (data_posts (start_locals sn table)))
  = set_column (get_url_column sn) (CStr []) table.
Proof.
  unfold iterrows. rewrite combine_snd_eq by (rewrite length_seq; reflexivity).
  reflexivity.
Qed.

(** Blanking the URL column leaves the captions as they are. *)
Lemma start_rows_caption (sn : SocialNetwork) (table : DataFrame) (r0 : row) :
  In r0 (set_column (get_url_column sn) (CStr []) table) ->
  exists r : row,
    In r table /\
    r0 !! get_text_column sn = r !! get_text_column sn.
Proof.
  unfold set_column. intros H. apply in_map_iff in H as (r & <- & Hin).
  exists r. split; [exact Hin |].
  apply lookup_insert_ne, text_column_not_url.
Qed.

(** With distinct row indices, a row marked as found holds the link of
    its found line. *)
Lemma replay_url_found (sn : SocialNetwork) (ivs : list (nat * verdict))
  (l : locals) (i : nat) (r : row) (u : pystr) :
  List.NoDup (map fst ivs) ->
  In (i, RowFound u) ivs ->
  data_posts l !! i = Some r ->
  exists r' : row,
    data_posts (replay sn ivs l) !! i = Some r' /\
    r' !! get_url_column sn = Some (CStr u).
Proof.
  revert l r. induction ivs as [|[j v] tl IH]; intros l r Hnd Hin Hl;
    [contradiction |].
  cbn [map fst] in Hnd. apply List.NoDup_cons_iff in Hnd as [Hj Hnd].
  rewrite replay_cons. destruct Hin as [Heq|Hin].
  - injection Heq as -> ->.
    assert (H1 : data_posts (apply_verdict sn l (i, RowFound u)) !! i
                 = Some (<[get_url_column sn := CStr u]> r)).
    { unfold apply_verdict, set_at. cbn [fst snd data_posts].
      rewrite list_lookup_alter_eq, Hl. reflexivity. }
    destruct (replay_url_kept sn tl _ i _ H1) as (r' & Hr' & Hu).
    + intros url Hf. apply Hj. apply (in_map fst) in Hf. exact Hf.
    + exists r'. split; [exact Hr' |]. rewrite Hu. apply lookup_insert_eq.
  - assert (exists r1 : row,
              data_posts (apply_verdict sn l (j, v)) !! i = Some r1)
      as [r1 H1].
    { destruct v as [|url|]; unfold apply_verdict; cbn [fst snd data_posts];
        eauto.
      destruct (set_at_frame j (get_url_column sn) (CStr url) _ i r Hl)
        as (r1 & H1 & _). eauto. }
    apply (IH _ _ Hnd Hin H1).
Qed.

Section WholeRuns.

Variable server : nat -> params -> reply.
Variables API_KEY CSE_ID : pystr.

(** A run costs and prints what its loop does. *)
Lemma main_loop (sn : SocialNetwork) (table : DataFrame) n r ev n' :
  main server API_KEY CSE_ID sn table n = (r, ev, n') ->
  exists rl evl,
    for_rows server API_KEY CSE_ID sn
      (iterrows (data_posts (start_locals sn table)))
      (start_locals sn table) n = (rl, evl, n') /\
    requests_of ev = requests_of evl /\
    total_sleep ev = total_sleep evl /\
    verdicts ev = verdicts evl /\
    match r, rl with
    | Ret ts, Ret l => ts = (data_posts l, totals l)
    | Raise e, Raise e' => e = e'
    | _, _ => False
    end.
Proof.
  rewrite main_unfold.
  destruct (for_rows _ _ _ _ _ _ _) as [[[l|e] evl] n1];
    intros H; injection H as <- <- <-;
    [exists (Ret l), evl | exists (Raise e), evl];
    (split; [reflexivity |]).
  - assert (Hq : requests_of (evl ++ closing_lines l) = requests_of evl)
      by (rewrite requests_of_app; apply app_nil_r).
    assert (Ht : total_sleep (evl ++ closing_lines l) = total_sleep evl)
      by (rewrite total_sleep_app; change (total_sleep (closing_lines l)) with 0; lia).
    assert (Hv : verdicts (evl ++ closing_lines l) = verdicts evl)
      by (rewrite verdicts_app; apply app_nil_r).
    splits; auto.
  - splits; auto.
Qed.

Lemma main_totals (sn : SocialNetwork) (table : DataFrame) n t' s ev n' :
  main server API_KEY CSE_ID sn table n = (Ret (t', s), ev, n') ->
  found s = count_if is_found (map snd (verdicts ev)) /\
  skipped s = count_if is_skipped (map snd (verdicts ev)) /\
  not_found s = count_if is_not_found (map snd (verdicts ev)).
Proof.
  intros H. apply main_ret in H as (vs & Hlen & Hv & _ & -> & _).
  assert (Hseq : length vs = length (seq 0 (length table)))
    by (rewrite length_seq; exact Hlen).
  assert (Hsnd : map snd (verdicts ev) = vs).
  { rewrite Hv, map_map. cbn [verdict_line snd].
    apply combine_snd_eq, Hseq. }
  rewrite Hsnd.
  destruct (replay_counts sn (combine (seq 0 (length table)) vs)
              (start_locals sn table)) as [Hf Hs].
  rewrite combine_snd_eq in Hf, Hs by exact Hseq.
  unfold totals. cbn [found skipped not_found].
  rewrite replay_length, start_locals_length, Hf, Hs.
  cbn [start_locals search_success insuficient_text].
  pose proof (count_verdicts vs) as Hc. rewrite Hlen in Hc.
  splits; lia.
Qed.

(** X4. A run, completed or aborted, issues at most five requests per row
    and spends at most 31 seconds per row waiting; a completed run issues
    at most five requests, and waits at most 31 seconds, for each row it
    counted as found or not found, and none for the skipped rows. *)
Theorem main_budget (sn : SocialNetwork) (table : DataFrame) n r ev n' :
  main server API_KEY CSE_ID sn table n = (r, ev, n') ->
  (n <= n')%nat /\
  length (requests_of ev) = (n' - n)%nat /\
  Z.of_nat (n' - n) <= 5 * Z.of_nat (length table) /\
  0 <= total_sleep ev <= 31 * Z.of_nat (length table) /\
  forall t' s,
    r = Ret (t', s) ->
    Z.of_nat (n' - n) <= 5 * (found s + not_found s) /\
    total_sleep ev <= 31 * (found s + not_found s).
Proof.
  intros H. pose proof H as Hm.
  apply main_loop in H as (rl & evl & Hl & -> & -> & Hv & Hr).
  apply for_rows_account in Hl
    as (Hle & Hq & _ & Hb & [Ht Ht'] & _ & done & rest & Hsplit & Hd & Hrl).
  assert (Hrows : length (done ++ rest) = length table).
  { rewrite <- Hsplit. unfold iterrows.
    rewrite length_combine, length_seq, Nat.min_id. apply start_locals_length. }
  rewrite length_app in Hrows.
  assert (Hs : searched evl <= Z.of_nat (length done)).
  { unfold searched.
    etransitivity; [apply count_if_le_length |].
    rewrite length_map, <- (length_map fst), Hd, length_map. lia. }
  assert (Hbound : searched evl + raised rl <= Z.of_nat (length table)).
  { destruct rl as [l|e]; cbn [raised]; [lia |].
    destruct Hrl as [Hne _]. destruct rest; [contradiction | cbn in Hrows; lia]. }
  splits; try lia.
  intros t' s ->. destruct rl as [l|e]; [| contradiction].
  destruct (main_totals _ _ _ _ _ _ _ Hm) as (Hf & _ & Hn).
  cbn [raised] in *. unfold searched in *. rewrite <- Hv in *.
  rewrite count_searched in *. lia.
Qed.

(** X5. Every request of a run carries the two credentials, asks for five
    results, and asks for a query of at least 200 characters that is the
    profile's site fragment, a plus sign and the BMP-filtered caption of
    one of the rows of the table. *)
Theorem main_requests (sn : SocialNetwork) (table : DataFrame) n r ev n' :
  main server API_KEY CSE_ID sn table n = (r, ev, n') ->
  Forall (sent_by API_KEY CSE_ID sn table) (requests_of ev).
Proof.
  intros H. apply main_loop in H as (rl & evl & Hl & -> & _).
  apply for_rows_account in Hl as (_ & _ & Hs & _).
  eapply List.Forall_impl; [| exact Hs].
  intros p (Hk & Hc & Hn & Hlen & r0 & text & Hin & Hr0 & Hq).
  rewrite start_rows in Hin.
  apply start_rows_caption in Hin as (r1 & Hin & Heq).
  unfold sent_by. splits; auto. exists r1, text. rewrite <- Heq. auto.
Qed.

(** X6. A run reaches the summary only if every row has a caption that is
    a string: one missing caption column or one empty caption cell (NaN)
    anywhere in the table keeps the run from completing, whatever the
    endpoint answers. *)
Theorem main_needs_captions (sn : SocialNetwork) (table : DataFrame)
  n ts ev n' :
  main server API_KEY CSE_ID sn table n = (Ret ts, ev, n') ->
  Forall (has_caption sn) table.
Proof.
  intros H. apply main_loop in H as (rl & evl & Hl & _ & _ & _ & Hr).
  destruct rl as [l|e]; [| contradiction].
  apply for_rows_account in Hl as (_ & _ & _ & _ & _ & _ & done & rest & _ & _ & _ & Hall).
  apply List.Forall_forall. intros r Hin.
  assert (Hin' : In (<[get_url_column sn := CStr []]> r)
                    (map snd (iterrows (data_posts (start_locals sn table))))).
  { rewrite start_rows. unfold set_column.
    apply (in_map (fun r : row => <[get_url_column sn := CStr []]> r)), Hin. }
  apply in_map_iff in Hin' as (ir & Heq & Hir).
  rewrite List.Forall_forall in Hall. destruct (Hall ir Hir) as [text Ht].
  exists text. rewrite Heq, lookup_insert_ne in Ht by apply text_column_not_url.
  exact Ht.
Qed.

Lemma loop_exception_not_http (sn : SocialNetwork) (e : exn) :
  loop_exception sn e -> forall response, e <> HTTPError response.
Proof.
  intros [->|He] response; [discriminate |].
  apply search_exception_not_http, He.
Qed.

(** X7. When a run aborts, some row failed: the rows before it have their
    lines, in row order, and the failing row and the rows after it have
    none; and the exception is never the one of a status error. *)
Theorem main_abort (sn : SocialNetwork) (table : DataFrame) n e ev n' :
  main server API_KEY CSE_ID sn table n = (Raise e, ev, n') ->
  (forall response, e <> HTTPError response) /\
  exists k : nat,
    (k < length table)%nat /\
    map fst (verdicts ev) = map line_of (seq 0 k).
Proof.
  intros H. apply main_loop in H as (rl & evl & Hl & _ & _ & -> & Hr).
  destruct rl as [l|e']; [contradiction |]. subst e'.
  apply for_rows_account in Hl
    as (_ & _ & _ & _ & _ & _ & done & rest & Hsplit & Hd & Hne & He).
  split; [eapply loop_exception_not_http, He |]. exists (length done).
  assert (Hrows : length (done ++ rest) = length table).
  { rewrite <- Hsplit. unfold iterrows.
    rewrite length_combine, length_seq, Nat.min_id. apply start_locals_length. }
  rewrite length_app in Hrows.
  split; [destruct rest; [contradiction | cbn in Hrows; lia] |].
  rewrite Hd, <- (map_map fst line_of). f_equal.
  apply (f_equal (map fst)) in Hsplit.
  rewrite iterrows_indices, map_app in Hsplit. symmetry in Hsplit.
  apply seq_prefix in Hsplit. rewrite length_map in Hsplit. exact Hsplit.
Qed.

(** X8. In the table a completed run writes, every URL cell is either
    the empty string, and then its row got a skipped or a not-found line,
    or a link that passes the profile's test, and then its row got the
    found line for that very link. *)
Theorem main_output_urls (sn : SocialNetwork) (table : DataFrame)
  n t' s ev n' :
  main server API_KEY CSE_ID sn table n = (Ret (t', s), ev, n') ->
  forall (i : nat) (r' : row),
    t' !! i = Some r' ->
    exists u,
      r' !! get_url_column sn = Some (CStr u) /\
      ((u = [] /\
        exists v, In (line_of i, v) (verdicts ev) /\ is_found v = false) \/
       (accepted sn u = true /\ In (line_of i, RowFound u) (verdicts ev))).
Proof.
  intros H i r' Hi.
  assert (Hacc : Forall (found_accepted sn) (verdicts ev)).
  { destruct (main_loop _ _ _ _ _ _ H) as (rl & evl & Hl & _ & _ & -> & _).
    apply for_rows_account in Hl as (_ & _ & _ & _ & _ & Hf & _). exact Hf. }
  apply main_ret in H as (vs & Hlen & Hv & -> & _ & _).
  set (ivs := combine (seq 0 (length table)) vs) in *.
  assert (Hfst : map fst ivs = seq 0 (length table))
    by (apply combine_fst_eq; rewrite length_seq; exact Hlen).
  assert (Hnd : List.NoDup (map fst ivs))
    by (rewrite Hfst; apply List.seq_NoDup).
  assert (Hlt : (i < length table)%nat).
  { apply lookup_lt_Some in Hi.
    rewrite replay_length, start_locals_length in Hi. exact Hi. }
  destruct (lookup_lt_is_Some_2 table i Hlt) as [r Hr].
  assert (H0 : data_posts (start_locals sn table) !! i
               = Some (<[get_url_column sn := CStr []]> r)).
  { unfold start_locals, set_column. cbn [data_posts].
    rewrite list_lookup_fmap, Hr. reflexivity. }
  assert (Hiv : exists v, In (i, v) ivs).
  { assert (Hin : In i (map fst ivs)) by (rewrite Hfst; apply in_seq; lia).
    apply in_map_iff in Hin as ([j v] & Hj & Hin). cbn in Hj. subst j. eauto. }
  destruct Hiv as [v Hin].
  assert (Hline : In (line_of i, v) (verdicts ev)).
  { rewrite Hv. apply (in_map verdict_line) in Hin. exact Hin. }
  destruct (is_found v) eqn:Hfound.
  - destruct v as [|u|]; try discriminate. exists u.
    destruct (replay_url_found sn ivs _ i _ u Hnd Hin H0) as (r2 & Hr2 & Hu).
    rewrite Hi in Hr2. injection Hr2 as <-. split; [exact Hu |]. right.
    split; [| exact Hline].
    rewrite List.Forall_forall in Hacc. apply (Hacc _ Hline). reflexivity.
  - exists []. destruct (replay_url_kept sn ivs _ i _ H0) as (r2 & Hr2 & Hu).
    + intros url Hf. rewrite (fst_unique _ _ _ _ Hnd Hin Hf) in Hfound.
      discriminate Hfound.
    + rewrite Hi in Hr2. injection Hr2 as <-. rewrite Hu, lookup_insert_eq.
      split; [reflexivity |]. left. split; [reflexivity |]. eauto.
Qed.

End WholeRuns.

(* ===================================================================== *)
(** ** The query and the acceptance test, further *)
(* ===================================================================== *)

Lemma filter_all_kept {A} (f : A -> bool) (l : list A) :
  List.filter f l = l <-> Forall (fun x => f x = true) l.
Proof.
  induction l as [|x l IH]; simpl.
  - split; [constructor | reflexivity].
  - destruct (f x) eqn:E.
    + split.
      * intros H. injection H as H. constructor; [exact E | apply IH, H].
      * intros H. inversion H; subst. f_equal. apply IH. assumption.
    + split.
      * intros H. exfalso.
        assert (Hlen : (length (List.filter f l) <= length l)%nat)
          by apply List.filter_length_le.
        rewrite H in Hlen. simpl in Hlen. lia.
      * intros H. inversion H; subst. congruence.
Qed.

(** X9. Filtering is idempotent, never lengthens the text, goes through
    concatenation, and leaves a text as it is exactly when the text has no
    character above U+FFFF. *)
Theorem filter_bmp_characters_stable (text text2 : pystr) :
  filter_bmp_characters (filter_bmp_characters text)
  = filter_bmp_characters text /\
  len (filter_bmp_characters text) <= len text /\
  filter_bmp_characters (text ++ text2)
  = filter_bmp_characters text ++ filter_bmp_characters text2 /\
  (filter_bmp_characters text = text <->
   Forall (fun c => (c <= 65535)%N) text).
Proof.
  rewrite !filter_bmp_as_filter. split; [| split; [| split]].
  - apply filter_all_kept, List.Forall_forall. intros c Hc.
    apply List.filter_In in Hc. apply Hc.
  - unfold len. apply inj_le, List.filter_length_le.
  - apply List.filter_app.
  - rewrite filter_all_kept. split; intros H; eapply List.Forall_impl; try exact H;
      intros c; cbn beta; rewrite N.leb_le; auto.
Qed.

Lemma build_query_length (sn : SocialNetwork) (text : pystr) :
  len (build_query sn text)
  = len (get_site_query sn) + 1 + count_if (fun c => (c <=? 65535)%N) text.
Proof.
  unfold build_query, len, count_if.
  rewrite !length_app, filter_bmp_as_filter. cbn [py length]. lia.
Qed.

(** X10. The minimum of 200 characters is applied to the whole query, so
    a caption falls below it exactly when it has fewer than 181 characters
    of the BMP under the Facebook profile, and fewer than 180 under the
    Instagram profile; characters above U+FFFF do not count, and every
    caption of fewer than 180 characters is below the minimum. *)
Theorem build_query_minimum (sn : SocialNetwork) (text : pystr) :
  (len (build_query sn text) < MIN_TEXT_LENGTH <->
   count_if (fun c => (c <=? 65535)%N) text
   < match sn with FACEBOOK => 181 | INSTAGRAM => 180 end) /\
  (len text < 180 -> len (build_query sn text) < MIN_TEXT_LENGTH).
Proof.
  rewrite build_query_length. unfold MIN_TEXT_LENGTH.
  assert (Hc : count_if (fun c => (c <=? 65535)%N) text <= len text)
    by apply count_if_le_length.
  destruct sn;
    [change (len (get_site_query FACEBOOK)) with 18
    | change (len (get_site_query INSTAGRAM)) with 19]; lia.
Qed.

(** X11. The acceptance test looks for the domain URL and for a path
    substring anywhere in the link, so a link that passes still passes
    with any text put before and after it. *)
Theorem accepted_in_context (sn : SocialNetwork) (link before after : pystr) :
  accepted sn link = true ->
  accepted sn (before ++ link ++ after) = true.
Proof.
  rewrite !accepted_spec.
  intros [(a & b & Hd) (sub & Hin & c & d & Hs)]. split.
  - exists (before ++ a), (b ++ after). rewrite Hd at 1.
    rewrite <- !app_assoc. reflexivity.
  - exists sub. split; [exact Hin |].
    exists (before ++ c), (d ++ after). rewrite Hs at 1.
    rewrite <- !app_assoc. reflexivity.
Qed.

Lemma accepted_in_context_witness :
  accepted FACEBOOK
    (py "https://example.org/?u=" ++
     py "https://www.facebook.com/posts/123" ++ py "&x=1") = true.
Proof.
  apply (accepted_in_context FACEBOOK (py "https://www.facebook.com/posts/123")
           (py "https://example.org/?u=") (py "&x=1")).
  reflexivity.
Defined.

Lemma build_query_minimum_witness :
  (len (build_query INSTAGRAM short_caption) < MIN_TEXT_LENGTH <->
   count_if (fun c => (c <=? 65535)%N) short_caption < 180) /\
  (len short_caption < 180 ->
   len (build_query INSTAGRAM short_caption) < MIN_TEXT_LENGTH).
Proof. exact (build_query_minimum INSTAGRAM short_caption). Defined.

(* ===================================================================== *)
(** ** Start-up *)
(* ===================================================================== *)

Lemma ends_with_spec (suffix s : pystr) :
  ends_with suffix s = true <-> exists stem, s = stem ++ suffix.
Proof.
  unfold ends_with. rewrite bool_decide_eq_true. split.
  - remember (length s - length suffix)%nat as k eqn:Hk. intros H.
    exists (firstn k s). rewrite <- H. symmetry. apply firstn_skipn.
  - intros [stem ->]. rewrite length_app.
    replace (length stem + length suffix - length suffix)%nat
      with (length stem) by lia.
    apply drop_app_length.
Qed.

Lemma list_in_spec (x : pystr) (l : list pystr) :
  list_in x l = true <-> In x l.
Proof.
  unfold list_in. rewrite existsb_exists. split.
  - intros (y & Hin & Hy). apply bool_decide_eq_true in Hy. subst y. exact Hin.
  - intros Hin. exists x. split; [exact Hin | apply bool_decide_eq_true; reflexivity].
Qed.

(** The number printed next to a file is its position, counted from 1. *)
Lemma listing_lookup (files : list pystr) (k : Z) (f : pystr) :
  In (SayListing k f) (listing files) <->
  1 <= k /\ files !! Z.to_nat (k - 1) = Some f.
Proof.
  unfold listing.
  assert (G : forall (a : nat) (l : list pystr),
            In (SayListing k f)
               (map (fun iv => SayListing (Z.of_nat (fst iv)) (snd iv))
                    (combine (seq a (length l)) l)) <->
            Z.of_nat a <= k /\ l !! Z.to_nat (k - Z.of_nat a) = Some f).
  { intros a l. revert a. induction l as [|x l IH]; intros a.
    - cbn. split; [contradiction | intros [_ H]; discriminate].
    - cbn [length seq combine map In fst snd]. rewrite IH. split.
      + intros [H|[Hle H]].
        * injection H as <- <-. split; [lia |].
          replace (Z.of_nat a - Z.of_nat a) with 0 by lia. reflexivity.
        * split; [lia |].
          replace (Z.to_nat (k - Z.of_nat a))
            with (S (Z.to_nat (k - Z.of_nat (S a)))) by lia.
          exact H.
      + intros [Hle H]. destruct (Z.eq_dec k (Z.of_nat a)) as [->|Hne].
        * left. replace (Z.of_nat a - Z.of_nat a) with 0 in H by lia.
          cbn in H. injection H as ->. reflexivity.
        * right. split; [lia |].
          replace (Z.to_nat (k - Z.of_nat a))
            with (S (Z.to_nat (k - Z.of_nat (S a)))) in H by lia.
          exact H. }
  apply (G 1%nat files).
Qed.

(** X12. [validate_file_extension] lets a name through exactly when the
    name is some stem followed by the extension, the empty stem included;
    any other name prints the notice and exits with status 1. It reads
    nothing from standard input. *)
Theorem validate_file_extension_spec (file_name extension : pystr)
  (stdin : list pystr) :
  ((exists stem, file_name = stem ++ extension) /\
   validate_file_extension file_name extension stdin = (Done tt, [], stdin)) \/
  (~ (exists stem, file_name = stem ++ extension) /\
   validate_file_extension file_name extension stdin
   = (Halt (SystemExit 1), [SayInvalidExtension extension], stdin)).
Proof.
  unfold validate_file_extension.
  destruct (ends_with extension file_name) eqn:E.
  - left. split; [apply ends_with_spec, E | reflexivity].
  - right. split; [| reflexivity].
    intros H. apply ends_with_spec in H. congruence.
Qed.

(** X13. The output name never equals the input name and always ends in
    [.csv]; for a name that passed the extension check it is the stem
    followed by [_with_urls.csv], and two such names with the same output
    name are the same name. *)
Theorem output_name_spec (file_name : pystr) :
  output_name file_name <> file_name /\
  ends_with (py ".csv") (output_name file_name) = true /\
  (forall stem, file_name = stem ++ py ".csv" ->
     output_name file_name = stem ++ py "_with_urls.csv") /\
  (forall other,
     ends_with (py ".csv") file_name = true ->
     ends_with (py ".csv") other = true ->
     output_name other = output_name file_name -> other = file_name).
Proof.
  assert (Hstem : forall stem, output_name (stem ++ py ".csv")
                               = stem ++ py "_with_urls.csv").
  { intros stem. unfold output_name. rewrite length_app.
    replace (length stem + length (py ".csv") - 4)%nat with (length stem)
      by (cbn; lia).
    rewrite take_app_length. reflexivity. }
  split; [| split; [| split]].
  - intros H. apply (f_equal (@length N)) in H. unfold output_name in H.
    rewrite length_app, length_firstn in H. cbn in H. lia.
  - apply ends_with_spec.
    exists (firstn (length file_name - 4) file_name ++ py "_with_urls").
    unfold output_name. rewrite <- app_assoc. reflexivity.
  - intros stem ->. apply Hstem.
  - intros other H1 H2 H.
    apply ends_with_spec in H1 as [stem1 ->].
    apply ends_with_spec in H2 as [stem2 ->].
    rewrite !Hstem in H. apply app_inv_tail in H. congruence.
Qed.

Lemma output_name_spec_witness :
  output_name (py "posts.csv") <> py "posts.csv" /\
  ends_with (py ".csv") (output_name (py "posts.csv")) = true /\
  output_name (py "posts.csv") = py "posts_with_urls.csv" /\
  (ends_with (py ".csv") (py "posts.csv") = true ->
   ends_with (py ".csv") (py "posts.csv") = true ->
   output_name (py "posts.csv") = output_name (py "posts.csv") ->
   py "posts.csv" = py "posts.csv").
Proof.
  destruct (output_name_spec (py "posts.csv")) as (H1 & H2 & H3 & H4).
  split; [exact H1 | split; [exact H2 | split]].
  - apply (H3 (py "posts")). reflexivity.
  - apply (H4 (py "posts.csv")).
Defined.

Section StartupFacts.

Variable str_isdigit : pystr -> bool.
Variable int_of_str : pystr -> option Z.
Variable listdir : list pystr.
Variable isfile : pystr -> bool.

(** One pass of the file loop either ends the loop or hands the remaining
    lines to the next pass. *)
Lemma file_loop_outcome (files : list pystr) (stdin : list pystr) r out rest :
  file_loop str_isdigit int_of_str files stdin = (r, out, rest) ->
  (exists used, stdin = used ++ rest) /\
  match r with
  | Done f => In f files /\ (length rest < length stdin)%nat
  | Halt e =>
      (e = EOFError /\ rest = []) \/
      (exists line, e = ValueError line /\ In line stdin /\
         str_isdigit line = true /\ int_of_str line = None)
  end.
Proof.
  revert r out rest. induction stdin as [|user_input tl IH]; intros r out rest.
  - cbn. intros H. injection H as <- _ <-. split; [exists []; reflexivity |].
    left. auto.
  - assert (Hnext : forall pre,
              (match file_loop str_isdigit int_of_str files tl with
               | (r0, out0, rest0) => (r0, pre ++ out0, rest0)
               end) = (r, out, rest) ->
              (exists used, user_input :: tl = used ++ rest) /\
              match r with
              | Done f => In f files /\ (length rest < length (user_input :: tl))%nat
              | Halt e =>
                  (e = EOFError /\ rest = []) \/
                  (exists line, e = ValueError line /\
                     In line (user_input :: tl) /\
                     str_isdigit line = true /\ int_of_str line = None)
              end).
    { intros pre.
      destruct (file_loop str_isdigit int_of_str files tl)
        as [[r0 out0] rest0] eqn:E.
      intros H. injection H as <- _ <-.
      destruct (IH _ _ _ eq_refl) as [[used Hu] Hr]. split.
      - exists (user_input :: used). rewrite Hu. reflexivity.
      - destruct r0 as [f|e].
        + destruct Hr as [Hin Hlen]. split; [exact Hin | cbn; lia].
        + destruct Hr as [Hr|(line & He & Hin & Hd & Hi)]; [left; exact Hr |].
          right. exists line. splits; auto. right. exact Hin. }
    assert (Hhere : forall o : result pystr,
              (o, [AskFileName], tl) = (r, out, rest) ->
              exists used, user_input :: tl = used ++ rest).
    { intros o H. injection H as _ _ <-. exists [user_input]. reflexivity. }
    cbn [file_loop]. destruct (bool_decide (user_input = py "?")).
    + apply (Hnext (AskFileName :: listing files)).
    + destruct (str_isdigit user_input) eqn:Hd.
      * destruct (int_of_str user_input) as [v|] eqn:Hi.
        -- cbn zeta.
           destruct ((0 <=? v - 1) && (v - 1 <? Z.of_nat (length files)))
             eqn:Hrange; [| apply (Hnext [AskFileName; SayInvalidName])].
           apply andb_true_iff in Hrange as [H0 H1].
           apply Z.leb_le in H0. apply Z.ltb_lt in H1.
           destruct (lookup_lt_is_Some_2 files (Z.to_nat (v - 1))) as [f Hf];
             [lia |].
           rewrite Hf. intros H. split; [eapply Hhere, H |].
           injection H as <- _ <-. split; [| cbn; lia].
           apply list_elem_of_In, list_elem_of_lookup. eauto.
        -- intros H. split; [eapply Hhere, H |]. injection H as <- _ _.
           right. exists user_input. splits; auto. left. reflexivity.
      * destruct (list_in user_input files) eqn:Hin;
          [| apply (Hnext [AskFileName; SayInvalidName])].
        intros H. split; [eapply Hhere, H |]. injection H as <- _ <-.
        split; [apply list_in_spec, Hin | cbn; lia].
Qed.

Lemma list_files_outcome (stdin : list pystr) r out rest :
  list_files_and_get_input str_isdigit int_of_str listdir isfile stdin
  = (r, out, rest) ->
  (exists used, stdin = used ++ rest) /\
  match r with
  | Done f =>
      In f listdir /\ isfile f = true /\ starts_with (py ".") f = false /\
      (length rest < length stdin)%nat
  | Halt e =>
      (e = EOFError /\ rest = []) \/
      (exists line, e = ValueError line /\ In line stdin /\
         str_isdigit line = true /\ int_of_str line = None)
  end.
Proof.
  unfold list_files_and_get_input. intros H.
  apply file_loop_outcome in H as [Hu Hr]. split; [exact Hu |].
  destruct r as [f|e]; [| exact Hr].
  destruct Hr as [Hin Hlen]. unfold visible_files in Hin.
  apply List.filter_In in Hin as [Hin Hf].
  apply andb_true_iff in Hf as [Hf Hdot]. apply negb_true_iff in Hdot.
  splits; auto.
Qed.

(** X14. Whatever file name [list_files_and_get_input] returns is an
    entry of the directory listing that is a regular file and does not
    start with a dot, and at least one input line was used for it; the
    lines left are a tail of the input; the only ways out besides a file
    name are the end of the input and an [int] that rejects a digit
    string, never an index out of range. *)
Theorem list_files_and_get_input_sound (stdin : list pystr) r out rest :
  list_files_and_get_input str_isdigit int_of_str listdir isfile stdin
  = (r, out, rest) ->
  (exists used, stdin = used ++ rest) /\
  match r with
  | Done f =>
      In f listdir /\ isfile f = true /\ starts_with (py ".") f = false /\
      (length rest < length stdin)%nat
  | Halt e =>
      (e = EOFError /\ rest = []) \/
      (exists line, e = ValueError line /\ In line stdin /\
         str_isdigit line = true /\ int_of_str line = None)
  end.
Proof. apply list_files_outcome. Qed.

(** X15. A digit string other than the question mark selects by number:
    the number that the listing prints next to a file selects that file,
    with one line read, and a number that the listing prints next to no
    file (zero, or one past the end) is refused and the loop asks again. *)
Theorem file_loop_by_number (files : list pystr) (line : pystr) (k : Z)
  (rest : list pystr) :
  line <> py "?" ->
  str_isdigit line = true ->
  int_of_str line = Some k ->
  (forall f, In (SayListing k f) (listing files) ->
     file_loop str_isdigit int_of_str files (line :: rest)
     = (Done f, [AskFileName], rest)) /\
  ((forall f, ~ In (SayListing k f) (listing files)) ->
   file_loop str_isdigit int_of_str files (line :: rest)
   = match file_loop str_isdigit int_of_str files rest with
     | (r, out, rest') => (r, AskFileName :: SayInvalidName :: out, rest')
     end).
Proof.
  intros Hq Hd Hi. cbn [file_loop].
  rewrite bool_decide_eq_false_2 by exact Hq. rewrite Hd, Hi. cbn zeta.
  split.
  - intros f Hin. apply listing_lookup in Hin as [Hk Hf].
    pose proof (lookup_lt_Some _ _ _ Hf) as Hlt.
    assert (Hrange : (0 <=? k - 1) && (k - 1 <? Z.of_nat (length files)) = true).
    { apply andb_true_iff. split; [apply Z.leb_le | apply Z.ltb_lt]; lia. }
    rewrite Hrange, Hf. reflexivity.
  - intros Hnone.
    destruct ((0 <=? k - 1) && (k - 1 <? Z.of_nat (length files))) eqn:Hrange;
      [| reflexivity].
    apply andb_true_iff in Hrange as [H0 H1].
    apply Z.leb_le in H0. apply Z.ltb_lt in H1.
    destruct (lookup_lt_is_Some_2 files (Z.to_nat (k - 1))) as [f Hf]; [lia |].
    exfalso. apply (Hnone f). apply listing_lookup. split; [lia | exact Hf].
Qed.

End StartupFacts.

Lemma then_done {A B} (m : C A) (k : A -> C B) stdin b out rest :
  then_ m k stdin = (Done b, out, rest) ->
  exists a out1 rest1 out2,
    m stdin = (Done a, out1, rest1) /\
    k a rest1 = (Done b, out2, rest) /\
    out = out1 ++ out2.
Proof.
  unfold then_. destruct (m stdin) as [[[a|f] out1] rest1]; [| discriminate].
  destruct (k a rest1) as [[r out2] rest2] eqn:E.
  intros H. injection H as -> <- <-. exists a, out1, rest1, out2. auto.
Qed.

Lemma env_variable_done (environ : gmap pystr pystr) (var_name : pystr)
  stdin v out rest :
  env_variable environ var_name stdin = (Done v, out, rest) ->
  environ !! var_name = Some v /\ v <> [] /\ out = [] /\ rest = stdin.
Proof.
  unfold env_variable. destruct (environ !! var_name) as [w|]; [| discriminate].
  destruct w as [|c w]; [discriminate |]. cbn.
  intros H. injection H as <- <- <-. splits; auto; discriminate.
Qed.

Lemma env_variable_unset (environ : gmap pystr pystr) (var_name : pystr)
  stdin :
  unset environ var_name ->
  env_variable environ var_name stdin = (Halt (ValueError var_name), [], stdin).
Proof.
  unfold env_variable. intros [->| ->]; reflexivity.
Qed.

Lemma env_variable_set (environ : gmap pystr pystr) (var_name v : pystr)
  stdin :
  environ !! var_name = Some v -> v <> [] ->
  env_variable environ var_name stdin = (Done v, [], stdin).
Proof.
  unfold env_variable. intros -> Hv. destruct v; [contradiction | reflexivity].
Qed.

Lemma select_social_network_done (v : Z) stdin sn out rest :
  select_social_network v stdin = (Done sn, out, rest) ->
  ((v = 1 /\ sn = FACEBOOK) \/ (v = 2 /\ sn = INSTAGRAM)) /\
  out = [] /\ rest = stdin.
Proof.
  unfold select_social_network.
  destruct (Z.eqb_spec v 1) as [->|H1].
  - intros H. injection H as <- <- <-. auto.
  - destruct (Z.eqb_spec v 2) as [->|H2]; [| discriminate].
    intros H. injection H as <- <- <-. auto.
Qed.

Section SessionFacts.

Variable str_isdigit : pystr -> bool.
Variable int_of_str : pystr -> option Z.
Variable listdir : list pystr.
Variable isfile : pystr -> bool.

(** X16. When the start-up hands over a session, both credentials are
    the non-empty values of the environment, the first input line reads
    as 1 for Facebook or as 2 for Instagram, and the file is a regular
    file of the directory listing whose name is a non-empty stem, not
    starting with a dot, followed by [.csv]. *)
Theorem main_startup_sound (environ : gmap pystr pystr)
  (stdin : list pystr) (sess : session) out rest :
  main_startup str_isdigit int_of_str listdir isfile environ stdin
  = (Done sess, out, rest) ->
  (environ !! py "API_KEY" = Some (session_key sess) /\ session_key sess <> []) /\
  (environ !! py "CSE_ID" = Some (session_cse sess) /\ session_cse sess <> []) /\
  (exists choice tl,
     stdin = choice :: tl /\
     ((int_of_str choice = Some 1 /\ session_network sess = FACEBOOK) \/
      (int_of_str choice = Some 2 /\ session_network sess = INSTAGRAM))) /\
  In (session_file sess) listdir /\
  isfile (session_file sess) = true /\
  exists stem,
    session_file sess = stem ++ py ".csv" /\
    stem <> [] /\ starts_with (py ".") stem = false.
Proof.
  unfold main_startup. intros H.
  apply then_done in H as (k & o1 & s1 & o1' & Hk & H & _).
  apply env_variable_done in Hk as (Hk & Hk0 & _ & ->).
  apply then_done in H as (c & o2 & s2 & o2' & Hc & H & _).
  apply env_variable_done in Hc as (Hc & Hc0 & _ & ->).
  apply then_done in H as (choice & o3 & s3 & o3' & Hin & H & _).
  apply then_done in H as (v & o4 & s4 & o4' & Hv & H & _).
  apply then_done in H as (sn & o5 & s5 & o5' & Hsn & H & _).
  apply then_done in H as (u & o6 & s6 & o6' & Hsay & H & _).
  apply then_done in H as (file & o7 & s7 & o7' & Hfile & H & _).
  apply then_done in H as (u' & o8 & s8 & o8' & Hval & H & _).
  injection H as <- _ _. cbn [session_key session_cse session_network session_file].
  unfold input in Hin. destruct stdin as [|line tl]; [discriminate |].
  injection Hin as <- _ <-.
  destruct (int_of_str line) as [w|] eqn:Hint; [| discriminate].
  injection Hv as <- _ <-.
  apply select_social_network_done in Hsn as (Hsel & _ & ->).
  injection Hsay as _ _ <-.
  apply list_files_outcome in Hfile as (_ & Hdir & Hreg & Hdot & _).
  unfold validate_file_extension in Hval.
  destruct (ends_with (py ".csv") file) eqn:Hext; [| discriminate].
  apply ends_with_spec in Hext as [stem Hstem].
  splits; auto.
  - exists line, tl. split; [reflexivity |].
    destruct Hsel as [[-> ->]|[-> ->]]; auto.
  - exists stem. subst file. split; [reflexivity |].
    destruct stem as [|c0 stem]; [discriminate Hdot |].
    split; [discriminate | exact Hdot].
Qed.

(** X17. The start-up refuses early: without a non-empty [API_KEY], or
    with it but without a non-empty [CSE_ID], [ValueError] is raised
    before anything is asked or read; and with both, a first line that
    reads as a number other than 1 and 2 ends the script with status 1
    after that one line, before any file is asked for. *)
Theorem main_startup_refusals (environ : gmap pystr pystr)
  (stdin : list pystr) :
  (unset environ (py "API_KEY") ->
   main_startup str_isdigit int_of_str listdir isfile environ stdin
   = (Halt (ValueError (py "API_KEY")), [], stdin)) /\
  (forall k, environ !! py "API_KEY" = Some k -> k <> [] ->
     unset environ (py "CSE_ID") ->
     main_startup str_isdigit int_of_str listdir isfile environ stdin
     = (Halt (ValueError (py "CSE_ID")), [], stdin)) /\
  (forall k c choice tl v,
     environ !! py "API_KEY" = Some k -> k <> [] ->
     environ !! py "CSE_ID" = Some c -> c <> [] ->
     stdin = choice :: tl ->
     int_of_str choice = Some v -> v <> 1 -> v <> 2 ->
     main_startup str_isdigit int_of_str listdir isfile environ stdin
     = (Halt (SystemExit 1), [AskNetwork; SayInvalidChoice], tl)).
Proof.
  unfold main_startup. split; [| split].
  - intros H. unfold then_ at 1. rewrite (env_variable_unset _ _ _ H).
    reflexivity.
  - intros k Hk Hk0 H. unfold then_ at 1.
    rewrite (env_variable_set _ _ _ _ Hk Hk0).
    unfold then_ at 1. rewrite (env_variable_unset _ _ _ H). reflexivity.
  - intros k c choice tl v Hk Hk0 Hc Hc0 -> Hv H1 H2.
    unfold then_ at 1. rewrite (env_variable_set _ _ _ _ Hk Hk0).
    unfold then_ at 1. rewrite (env_variable_set _ _ _ _ Hc Hc0).
    unfold then_, input, select_social_network, say, abort, pure.
    rewrite Hv. apply Z.eqb_neq in H1, H2. rewrite H1, H2. reflexivity.
Qed.

End SessionFacts.

(** The sample session. *)
Lemma sample_startup :
  main_startup ascii_isdigit ascii_int sample_listdir sample_isfile
    sample_environ sample_stdin
  = (Done sample_session, sample_console, [py "left over"]).
Proof. vm_compute. reflexivity. Qed.

Lemma main_startup_sound_witness :
  (sample_environ !! py "API_KEY" = Some (py "k") /\ py "k" <> []) /\
  (sample_environ !! py "CSE_ID" = Some (py "c") /\ py "c" <> []) /\
  (exists choice tl,
     sample_stdin = choice :: tl /\
     ((ascii_int choice = Some 1 /\ FACEBOOK = FACEBOOK) \/
      (ascii_int choice = Some 2 /\ FACEBOOK = INSTAGRAM))) /\
  In (py "posts.csv") sample_listdir /\
  sample_isfile (py "posts.csv") = true /\
  exists stem,
    py "posts.csv" = stem ++ py ".csv" /\
    stem <> [] /\ starts_with (py ".") stem = false.
Proof.
  exact (main_startup_sound ascii_isdigit ascii_int sample_listdir
           sample_isfile sample_environ sample_stdin sample_session
           sample_console [py "left over"] sample_startup).
Defined.

(* ===================================================================== *)
(** ** Sample runs for the facts above *)
(* ===================================================================== *)

Lemma sample_search :
  google_search server_busy_then_links (py "k") (py "c")
    (py "site: facebook.com+hello") FACEBOOK 5 5 0%nat
  = (Ret (py "https://www.facebook.com/posts/123"), sample_search_events,
     2%nat).
Proof. vm_compute. reflexivity. Qed.

Lemma sample_search_down :
  google_search server_down (py "k") (py "c")
    (py "site: facebook.com+hello") FACEBOOK 5 5 0%nat
  = (Raise ConnectionError, [EvGet sample_params], 1%nat).
Proof. reflexivity. Qed.

Lemma sample_abort :
  main server_cats (py "k") (py "c") FACEBOOK sample_broken_table 0%nat
  = (Raise TypeError, sample_broken_events, 1%nat).
Proof. vm_compute. reflexivity. Qed.

(** C1, as stated, fails: a run in which a row raises stops at that row,
    which gets none of the three lines, and prints no totals. Here the
    third caption is empty (NaN); a connection failure does the same. *)
Lemma main_counts_abort :
  main server_cats (py "k") (py "c") FACEBOOK sample_broken_table 0%nat
  = (Raise TypeError, sample_broken_events, 1%nat) /\
  length sample_broken_table = 3%nat /\
  verdicts sample_broken_events
  = [(1, RowSkipped); (2, RowFound (py "https://www.facebook.com/posts/123"))] /\
  forallb (fun e => match e with
                    | EvPrint (MsgDone _ _) | EvPrint (MsgIgnored _)
                    | EvPrint (MsgFailed _) => false
                    | _ => true
                    end) sample_broken_events = true /\
  (exists ev n',
     main server_down (py "k") (py "c") FACEBOOK sample_table 0%nat
     = (Raise ConnectionError, ev, n') /\
     verdicts ev = [(1, RowSkipped)]) /\
  ~ (forall server (table : DataFrame) n, exists t' s ev n',
       main server (py "k") (py "c") FACEBOOK table n = (Ret (t', s), ev, n') /\
       found s + skipped s + not_found s = Z.of_nat (length table) /\
       map fst (verdicts ev) = map line_of (seq 0 (length table))).
Proof.
  split; [vm_compute; reflexivity |].
  split; [reflexivity |].
  split; [vm_compute; reflexivity |].
  split; [vm_compute; reflexivity |].
  split; [eexists _, _; split; vm_compute; reflexivity |].
  intros H. destruct (H server_cats sample_broken_table 0%nat)
    as (t' & s & ev & n' & E & _).
  assert (E' : main server_cats (py "k") (py "c") FACEBOOK sample_broken_table
                 0%nat = (Raise TypeError, sample_broken_events, 1%nat))
    by (vm_compute; reflexivity).
  rewrite E' in E. discriminate E.
Qed.

Lemma server_cats_digestible : forall m p, digestible (server_cats m p) = true.
Proof.
  intros m p. unfold server_cats. destruct (str_in _ _); reflexivity.
Qed.

Lemma sample_table_captions :
  Forall (fun r : row =>
            exists text, r !! get_text_column FACEBOOK = Some (CStr text))
         sample_table.
Proof. repeat constructor; eexists; vm_compute; reflexivity. Qed.

Lemma sample_file_pick :
  list_files_and_get_input ascii_isdigit ascii_int sample_listdir
    sample_isfile (tl sample_stdin)
  = (Done (py "posts.csv"), tl (tl sample_console), [py "left over"]).
Proof. vm_compute. reflexivity. Qed.

Lemma google_search_budget_witness :
  let p := sample_params in
  (0 <= 2)%nat /\
  requests_of sample_search_events = repeat p (2 - 0) /\
  (2 - 0 <= Z.to_nat 5)%nat /\
  exists k : nat,
    (k <= 2 - 0)%nat /\
    sleeps_of sample_search_events
    = map (fun attempt => 2 ^ attempt) (range (Z.of_nat k)) /\
    total_sleep sample_search_events = 2 ^ Z.of_nat k - 1 /\
    total_sleep sample_search_events <= 2 ^ Z.max 0 5 - 1.
Proof.
  exact (google_search_budget server_busy_then_links (py "k") (py "c")
           (py "site: facebook.com+hello") FACEBOOK 5 5 0%nat _ _ _
           sample_search).
Defined.

Lemma google_search_raise_kinds_witness :
  (forall response, ConnectionError <> HTTPError response) /\
  exists ev0, [EvGet sample_params] = ev0 ++ [EvGet sample_params].
Proof.
  exact (google_search_raise_kinds server_down (py "k") (py "c")
           (py "site: facebook.com+hello") FACEBOOK 5 5 0%nat _ _ _
           sample_search_down).
Defined.

Lemma google_search_result_witness :
  truthy (py "https://www.facebook.com/posts/123")
  = accepted FACEBOOK (py "https://www.facebook.com/posts/123") /\
  (py "https://www.facebook.com/posts/123" = [] \/
   accepted FACEBOOK (py "https://www.facebook.com/posts/123") = true).
Proof.
  exact (google_search_result server_busy_then_links (py "k") (py "c")
           (py "site: facebook.com+hello") FACEBOOK 5 5 0%nat _ _ _
           sample_search).
Defined.

Lemma main_budget_witness :
  (0 <= 2)%nat /\
  length (requests_of sample_events) = (2 - 0)%nat /\
  Z.of_nat (2 - 0) <= 5 * Z.of_nat (length sample_table) /\
  0 <= total_sleep sample_events <= 31 * Z.of_nat (length sample_table) /\
  forall t' s,
    Ret (sample_output, sample_totals) = Ret (t', s) ->
    Z.of_nat (2 - 0) <= 5 * (found s + not_found s) /\
    total_sleep sample_events <= 31 * (found s + not_found s).
Proof.
  exact (main_budget server_cats (py "k") (py "c") FACEBOOK sample_table
           0%nat _ _ _ sample_run).
Defined.

Lemma main_requests_witness :
  Forall (sent_by (py "k") (py "c") FACEBOOK sample_table)
         (requests_of sample_events).
Proof.
  exact (main_requests server_cats (py "k") (py "c") FACEBOOK sample_table
           0%nat _ _ _ sample_run).
Defined.

Lemma main_needs_captions_witness :
  Forall (has_caption FACEBOOK) sample_table.
Proof.
  exact (main_needs_captions server_cats (py "k") (py "c") FACEBOOK
           sample_table 0%nat _ _ _ sample_run).
Defined.

Lemma main_abort_witness :
  (forall response, TypeError <> HTTPError response) /\
  exists k : nat,
    (k < length sample_broken_table)%nat /\
    map fst (verdicts sample_broken_events) = map line_of (seq 0 k).
Proof.
  exact (main_abort server_cats (py "k") (py "c") FACEBOOK
           sample_broken_table 0%nat _ _ _ sample_abort).
Defined.

Lemma main_output_urls_witness :
  exists u,
    sample_row cats_caption (py "2") (py "https://www.facebook.com/posts/123")
      !! get_url_column FACEBOOK = Some (CStr u) /\
    ((u = [] /\
      exists v, In (line_of 1, v) (verdicts sample_events) /\
                is_found v = false) \/
     (accepted FACEBOOK u = true /\
      In (line_of 1, RowFound u) (verdicts sample_events))).
Proof.
  apply (main_output_urls server_cats (py "k") (py "c") FACEBOOK sample_table
           0%nat _ _ _ _ sample_run 1%nat).
  reflexivity.
Defined.

Lemma main_returns_witness :
  exists t' s ev n',
    main server_cats (py "k") (py "c") FACEBOOK sample_table 0%nat
    = (Ret (t', s), ev, n').
Proof.
  exact (main_returns server_cats (py "k") (py "c") server_cats_digestible
           FACEBOOK sample_table 0%nat sample_table_captions).
Defined.

Lemma list_files_and_get_input_sound_witness :
  (exists used, tl sample_stdin = used ++ [py "left over"]) /\
  In (py "posts.csv") sample_listdir /\
  sample_isfile (py "posts.csv") = true /\
  starts_with (py ".") (py "posts.csv") = false /\
  (length [py "left over"] < length (tl sample_stdin))%nat.
Proof.
  exact (list_files_and_get_input_sound ascii_isdigit ascii_int sample_listdir
           sample_isfile (tl sample_stdin) _ _ _ sample_file_pick).
Defined.

Lemma file_loop_by_number_witness :
  (forall f, In (SayListing 2 f) (listing sample_visible) ->
     file_loop ascii_isdigit ascii_int sample_visible [py "2"; py "left over"]
     = (Done f, [AskFileName], [py "left over"])) /\
  ((forall f, ~ In (SayListing 2 f) (listing sample_visible)) ->
   file_loop ascii_isdigit ascii_int sample_visible [py "2"; py "left over"]
   = match file_loop ascii_isdigit ascii_int sample_visible [py "left over"]
     with
     | (r, out, rest') => (r, AskFileName :: SayInvalidName :: out, rest')
     end).
Proof.
  apply (file_loop_by_number ascii_isdigit ascii_int sample_visible (py "2") 2
           [py "left over"]).
  - discriminate.
  - reflexivity.
  - reflexivity.
Defined.

Lemma main_startup_refusals_witness :
  main_startup ascii_isdigit ascii_int sample_listdir sample_isfile ∅
    sample_stdin
  = (Halt (ValueError (py "API_KEY")), [], sample_stdin) /\
  main_startup ascii_isdigit ascii_int sample_listdir sample_isfile
    sample_environ_key_only sample_stdin
  = (Halt (ValueError (py "CSE_ID")), [], sample_stdin) /\
  main_startup ascii_isdigit ascii_int sample_listdir sample_isfile
    sample_environ [py "7"; py "posts.csv"]
  = (Halt (SystemExit 1), [AskNetwork; SayInvalidChoice], [py "posts.csv"]).
Proof.
  split; [| split].
  - apply (main_startup_refusals ascii_isdigit ascii_int sample_listdir
             sample_isfile ∅ sample_stdin).
    left. reflexivity.
  - apply (main_startup_refusals ascii_isdigit ascii_int sample_listdir
             sample_isfile sample_environ_key_only sample_stdin) with (k := py "k").
    + reflexivity.
    + discriminate.
    + left. reflexivity.
  - apply (main_startup_refusals ascii_isdigit ascii_int sample_listdir
             sample_isfile sample_environ [py "7"; py "posts.csv"])
      with (k := py "k") (c := py "c") (choice := py "7") (v := 7).
    + reflexivity.
    + discriminate.
    + reflexivity.
    + discriminate.
    + reflexivity.
    + reflexivity.
    + lia.
    + lia.
Defined.
